(** * plexapi.collection: the Collection resource

    A shallow embedding of [plexapi/collection.py].  Python strings are
    sequences of code points; here they are [string]s whose characters are
    the code points below 256.  Methods that talk to the server run in a
    state-and-exception monad whose state holds the object ([self]) and the
    trace of HTTP requests issued so far. *)

From Stdlib Require Import ZArith NArith Ascii String DecimalString.
From stdpp Require Import gmap strings list.

Local Open Scope Z_scope.

(** ** Python string primitives *)

Module PyStr.

(** [s.startswith(p)] *)
Definition startswith (s p : string) : bool := String.prefix p s.

(** [s.endswith(p)] *)
Definition endswith (s p : string) : bool :=
  let n := String.length s in
  let k := String.length p in
  if (k <=? n)%nat then String.eqb (String.substring (n - k) k s) p else false.

(** [s[:n]] *)
Fixpoint take (n : nat) (s : string) : string :=
  match n, s with
  | O, _ => EmptyString
  | S _, EmptyString => EmptyString
  | S k, String c s' => String c (take k s')
  end.

(** The scan of [str.replace] for a non-empty [old]: left to right, every
    match is replaced and the scan resumes after it, so matches do not
    overlap.  [skip] counts the characters of the current match still to
    be dropped. *)
Fixpoint replace_scan (old new : string) (skip : nat) (s : string) : string :=
  match s with
  | EmptyString => EmptyString
  | String c s' =>
      match skip with
      | S k => replace_scan old new k s'
      | O =>
          if startswith s old
          then new +:+ replace_scan old new (String.length old - 1) s'
          else String c (replace_scan old new 0 s')
      end
  end.

(** With an empty [old], [str.replace] puts [new] before every character
    and at the end. *)
Fixpoint replace_empty (new s : string) : string :=
  match s with
  | EmptyString => new
  | String c s' => new +:+ String c (replace_empty new s')
  end.

(** [s.replace(old, new)] *)
Definition replace (s old new : string) : string :=
  match old with
  | EmptyString => replace_empty new s
  | String _ _ => replace_scan old new 0 s
  end.

(** [old in s] *)
Fixpoint contains (s old : string) : bool :=
  startswith s old
  || match s with
     | EmptyString => false
     | String _ s' => contains s' old
     end.

(** [c.lower()] on a code point below 256: the upper-case letters there
    are A-Z, and U+00C0-U+00DE without the multiplication sign U+00D7;
    each has its lower-case form 32 places further. *)
Definition lower_char (c : ascii) : ascii :=
  let n := N_of_ascii c in
  if ((65 <=? n) && (n <=? 90) ||
      (192 <=? n) && (n <=? 222) && negb (n =? 215))%N
  then ascii_of_N (n + 32) else c.

(** [s.lower()] *)
Fixpoint lower (s : string) : string :=
  match s with
  | EmptyString => EmptyString
  | String c s' => String (lower_char c) (lower s')
  end.

(** [sep.join(l)] *)
Definition join (sep : string) (l : list string) : string := String.concat sep l.

(** [str(n)] for an [int] *)
Definition of_int (n : Z) : string := NilZero.string_of_int (Z.to_int n).

(** [str(x)], also what [%s] prints, for a value that is a string or [None] *)
Definition of_opt (x : option string) : string :=
  match x with
  | Some s => s
  | None => "None"
  end.

(** [repr(s)] for a string without quotes, backslashes or control
    characters, as the keys of the tables below are *)
Definition repr (s : string) : string := "'" +:+ s +:+ "'".

(** [str(l)] for a list of such strings *)
Definition of_list (l : list string) : string :=
  "[" +:+ join ", " (map repr l) +:+ "]".

(** The double-quote character, as a one-character string *)
Definition dquote : string := String (ascii_of_N 34) EmptyString.

End PyStr.

(** ** Exceptions and results *)

(** The exceptions of [plexapi.exceptions] this module raises, the built-in
    ones its statements can raise, and [ServerError] for whatever else the
    transport raises. *)
Inductive exn :=
| BadRequest (msg : string)
| NotFound (msg : string)
| Unsupported (msg : string)
| TypeError (msg : string)
| IndexError (msg : string)
| ValueError (msg : string)
| ServerError (msg : string).

Inductive result (A : Type) : Type :=
| Ok (a : A)
| Raise (e : exn).
Arguments Ok {A} a.
Arguments Raise {A} e.

#[global] Instance result_ret : MRet result := fun A a => Ok a.
#[global] Instance result_bind : MBind result := fun A B k r =>
  match r with
  | Ok a => k a
  | Raise e => Raise e
  end.

(** State and exceptions: a computation maps the state before to its
    outcome and the state after; an exception keeps the state reached. *)
Definition SE (S A : Type) : Type := S -> result A * S.

#[global] Instance SE_ret {S} : MRet (SE S) := fun A a s => (Ok a, s).
#[global] Instance SE_bind {S} : MBind (SE S) := fun A B k m s =>
  match m s with
  | (Ok a, s') => k a s'
  | (Raise e, s') => (Raise e, s')
  end.

Definition raise {S A} (e : exn) : SE S A := fun s => (Raise e, s).
Definition lift_result {S A} (r : result A) : SE S A := fun s => (r, s).

(** ** Data model *)

Inductive method := GET | PUT | POST | DELETE.

Record request := Request { req_method : method; req_path : string }.

(** An XML element of a server answer: its attribute dict and its child
    elements. *)
#[warnings="-register-all"]
Inductive Element := Elem (attrib : gmap string string) (children : list Element).

Definition attrib (e : Element) : gmap string string :=
  match e with Elem a _ => a end.

Definition children (e : Element) : list Element :=
  match e with Elem _ c => c end.

(** What the transport does with a request: it answers with a document or
    raises. *)
Inductive response :=
| Reply (data : Element)
| Fault (e : exn).

(** Computations that only talk to the server *)
Abbreviation IO := (SE (list request)).

(** A value of a query-argument dict: a string or an int *)
Inductive pyval :=
| PStr (s : string)
| PInt (n : Z).

(** A media object (Audio, Video, Photo), with the attributes this module
    reads. *)
Module Item.
Record t := { type : string; ratingKey : Z; title : string }.
End Item.

Record LibrarySection := { section_key : pyval; section_TYPE : string }.

(** The arguments of a smart filter; they are handed to the section as they
    come. *)
Record SearchArgs := {
  libtype : option string;
  limit : option Z;
  sort : option string;
  filters : gmap string string;
  kwargs : gmap string string
}.

(** The [items] argument of the membership operations: [None], one media
    object, or a list or tuple of them. *)
Inductive items_arg :=
| ItemsNone
| OneItem (i : Item.t)
| ItemSeq (l : list Item.t).

(** The [section] argument of the factories: a [LibrarySection] or the
    name of one. *)
Inductive section_arg :=
| SectionObj (s : LibrarySection)
| SectionName (name : string).

Record Collection := {
  addedAt : option Z;
  art : option string;
  artBlurHash : option string;
  childCount : option Z;
  collectionMode : Z;
  collectionPublished : bool;
  collectionSort : Z;
  content : option string;
  contentRating : option string;
  fields : list Element;
  guid : option string;
  index : option Z;
  key : string;
  labels : list Element;
  librarySectionID : option Z;
  librarySectionKey : option string;
  librarySectionTitle : option string;
  maxYear : option Z;
  minYear : option Z;
  ratingCount : option Z;
  ratingKey : option Z;
  smart : bool;
  subtype : option string;
  summary : option string;
  thumb : option string;
  thumbBlurHash : option string;
  title : option string;
  titleSort : option string;
  type : option string;
  updatedAt : option Z;
  _items : option (list Item.t);
  _section : option LibrarySection
}.

(** The state of a method call: the object and the requests issued so far,
    oldest first. *)
Record State := { self : Collection; trace : list request }.

Abbreviation M := (SE State).

Definition liftIO {A} (m : IO A) : M A := fun st =>
  let (r, t) := m (trace st) in (r, {| self := self st; trace := t |}).

Definition get_self : M Collection := fun st => (Ok (self st), st).

Definition set_self (c : Collection) : M unit := fun st =>
  (Ok tt, {| self := c; trace := trace st |}).

(** ** Collaborators *)

(** [plexapi.utils], which is not part of this module: the functions used
    here are parameters.  [cast_int] and [cast_bool] are [utils.cast] at
    [int] and [bool] on an attribute that is there, [cast_int_opt] is
    [utils.cast] at [int] on one that may be missing; a datetime is held
    as its timestamp. *)
Record Utils := {
  cast_int : string -> result Z;
  cast_int_opt : option string -> result (option Z);
  cast_bool : string -> result bool;
  toDatetime : option string -> result (option Z);
  joinArgs : list (string * pyval) -> string;
  searchType : string -> result Z
}.

(** The server object: its identity root, what its transport answers to a
    request given the requests before it, the lookup of a library section
    by name and, for a section, the building of its search key. *)
Record Server := {
  _uriRoot : string;
  respond : list request -> request -> response;
  library_section : string -> IO LibrarySection;
  _buildSearchKey : LibrarySection -> SearchArgs -> IO string
}.

(** What the base classes and mixins provide: building a media object or a
    field or label from an element, the advanced-setting edit and the base
    class's [section]. *)
Record Base := {
  buildItem : Element -> Item.t;
  findItems : Element -> string -> list Element;
  editAdvanced : string -> Z -> M unit;
  super_section : M LibrarySection
}.

(** Assignment to the two cache attributes *)
Definition set_items (c : Collection) (v : option (list Item.t)) : Collection :=
  {| addedAt := addedAt c; art := art c; artBlurHash := artBlurHash c;
     childCount := childCount c; collectionMode := collectionMode c;
     collectionPublished := collectionPublished c; collectionSort := collectionSort c;
     content := content c; contentRating := contentRating c; fields := fields c;
     guid := guid c; index := index c; key := key c; labels := labels c;
     librarySectionID := librarySectionID c; librarySectionKey := librarySectionKey c;
     librarySectionTitle := librarySectionTitle c; maxYear := maxYear c;
     minYear := minYear c; ratingCount := ratingCount c; ratingKey := ratingKey c;
     smart := smart c; subtype := subtype c; summary := summary c; thumb := thumb c;
     thumbBlurHash := thumbBlurHash c; title := title c; titleSort := titleSort c;
     type := type c; updatedAt := updatedAt c;
     _items := v; _section := _section c |}.

Definition set_section (c : Collection) (v : option LibrarySection) : Collection :=
  {| addedAt := addedAt c; art := art c; artBlurHash := artBlurHash c;
     childCount := childCount c; collectionMode := collectionMode c;
     collectionPublished := collectionPublished c; collectionSort := collectionSort c;
     content := content c; contentRating := contentRating c; fields := fields c;
     guid := guid c; index := index c; key := key c; labels := labels c;
     librarySectionID := librarySectionID c; librarySectionKey := librarySectionKey c;
     librarySectionTitle := librarySectionTitle c; maxYear := maxYear c;
     minYear := minYear c; ratingCount := ratingCount c; ratingKey := ratingKey c;
     smart := smart c; subtype := subtype c; summary := summary c; thumb := thumb c;
     thumbBlurHash := thumbBlurHash c; title := title c; titleSort := titleSort c;
     type := type c; updatedAt := updatedAt c;
     _items := _items c; _section := v |}.

(** [data.attrib.get(k)] and [data.attrib.get(k, d)] *)
Definition attr (data : Element) (k : string) : option string := attrib data !! k.
Definition attr_or (data : Element) (k d : string) : string := default d (attrib data !! k).

(** A dict literal with its keys in the order written; [d.get(k)] and
    [list(d)] *)
Definition dict_get {V} (d : list (string * V)) (k : option string) : option V :=
  match k with
  | Some s => snd <$> List.find (fun kv => String.eqb (fst kv) s) d
  | None => None
  end.

Definition dict_keys {V} (d : list (string * V)) : list string := map fst d.

(** ** The class *)

Section Collection.

Variable utils : Utils.
Variable server : Server.
Variable base : Base.

Definition _loadData (data : Element) : result Collection :=
  v_addedAt ← toDatetime utils (attr data "addedAt");
  let v_art := attr data "art" in
  let v_artBlurHash := attr data "artBlurHash" in
  v_childCount ← cast_int_opt utils (attr data "childCount");
  v_collectionMode ← cast_int utils (attr_or data "collectionMode" "-1");
  v_collectionPublished ← cast_bool utils (attr_or data "collectionPublished" "0");
  v_collectionSort ← cast_int utils (attr_or data "collectionSort" "0");
  let v_content := attr data "content" in
  let v_contentRating := attr data "contentRating" in
  let v_fields := findItems base data "Field" in
  let v_guid := attr data "guid" in
  v_index ← cast_int_opt utils (attr data "index");
  let v_key := PyStr.replace (attr_or data "key" "") "/children" "" in
  let v_labels := findItems base data "Label" in
  v_librarySectionID ← cast_int_opt utils (attr data "librarySectionID");
  let v_librarySectionKey := attr data "librarySectionKey" in
  let v_librarySectionTitle := attr data "librarySectionTitle" in
  v_maxYear ← cast_int_opt utils (attr data "maxYear");
  v_minYear ← cast_int_opt utils (attr data "minYear");
  v_ratingCount ← cast_int_opt utils (attr data "ratingCount");
  v_ratingKey ← cast_int_opt utils (attr data "ratingKey");
  v_smart ← cast_bool utils (attr_or data "smart" "0");
  let v_subtype := attr data "subtype" in
  let v_summary := attr data "summary" in
  let v_thumb := attr data "thumb" in
  let v_thumbBlurHash := attr data "thumbBlurHash" in
  let v_title := attr data "title" in
  let v_titleSort := match attr data "titleSort" with
                     | Some s => Some s
                     | None => v_title
                     end in
  let v_type := attr data "type" in
  v_updatedAt ← toDatetime utils (attr data "updatedAt");
  mret {| addedAt := v_addedAt; art := v_art; artBlurHash := v_artBlurHash;
          childCount := v_childCount; collectionMode := v_collectionMode;
          collectionPublished := v_collectionPublished;
          collectionSort := v_collectionSort; content := v_content;
          contentRating := v_contentRating; fields := v_fields; guid := v_guid;
          index := v_index; key := v_key; labels := v_labels;
          librarySectionID := v_librarySectionID;
          librarySectionKey := v_librarySectionKey;
          librarySectionTitle := v_librarySectionTitle; maxYear := v_maxYear;
          minYear := v_minYear; ratingCount := v_ratingCount;
          ratingKey := v_ratingKey; smart := v_smart; subtype := v_subtype;
          summary := v_summary; thumb := v_thumb; thumbBlurHash := v_thumbBlurHash;
          title := v_title; titleSort := v_titleSort; type := v_type;
          updatedAt := v_updatedAt; _items := None; _section := None |}.

(** Modelled from the spec: [PlexServer.query] (plexapi/server.py) is not
    part of this module.  It issues one HTTP request with the given method
    at the given path and returns the parsed answer; a failure of the
    transport reaches the caller as it is. *)
Definition query (key : string) (m : method) : IO Element := fun t =>
  let r := Request m key in
  match respond server t r with
  | Reply data => (Ok data, t ++ [r])
  | Fault e => (Raise e, t ++ [r])
  end.

(** Modelled from the spec: [PlexObject.fetchItems] (plexapi/base.py) is
    not part of this module.  It requests the child list at the given
    path and returns the child records, parsed. *)
Definition fetchItems (ekey : string) : M (list Item.t) :=
  data ← liftIO (query ekey GET);
  mret (map (buildItem base) (children data)).

Definition isVideo (c : Collection) : bool :=
  match subtype c with
  | Some s => bool_decide (s ∈ ({[ "movie"; "show"; "season"; "episode" ]} : gset string))
  | None => false
  end.

Definition isAudio (c : Collection) : bool :=
  match subtype c with
  | Some s => bool_decide (s ∈ ({[ "artist"; "album"; "track" ]} : gset string))
  | None => false
  end.

Definition isPhoto (c : Collection) : bool :=
  match subtype c with
  | Some s => bool_decide (s ∈ ({[ "photoalbum"; "photo" ]} : gset string))
  | None => false
  end.

Definition listType (c : Collection) : result string :=
  if isVideo c then Ok "video"
  else if isAudio c then Ok "audio"
  else if isPhoto c then Ok "photo"
  else Raise (Unsupported "Unexpected collection type").

Definition metadataType (c : Collection) : option string := subtype c.

Definition section : M LibrarySection :=
  c ← get_self;
  match _section c with
  | None =>
      s ← super_section base;
      c ← get_self;
      set_self (set_section c (Some s));;
      mret s
  | Some s => mret s
  end.

Definition items : M (list Item.t) :=
  c ← get_self;
  match _items c with
  | None =>
      let key := key c +:+ "/children" in
      items ← fetchItems key;
      c ← get_self;
      set_self (set_items c (Some items));;
      mret items
  | Some l => mret l
  end.

Definition item (title : string) : M Item.t :=
  l ← items;
  match List.find (fun i => String.eqb (PyStr.lower (Item.title i)) (PyStr.lower title)) l with
  | Some i => mret i
  | None =>
      raise (NotFound ("Item with title " +:+ PyStr.dquote +:+ title +:+ PyStr.dquote
                       +:+ " not found in the collection"))
  end.

Definition get (title : string) : M Item.t := item title.

Definition mode_dict : list (string * Z) :=
  [("default", -1); ("hide", 0); ("hideItems", 1); ("showItems", 2)].

Definition modeUpdate (mode : option string) : M unit :=
  match dict_get mode_dict mode with
  | None =>
      raise (BadRequest ("Unknown collection mode : " +:+ PyStr.of_opt mode
                         +:+ ". Options " +:+ PyStr.of_list (dict_keys mode_dict)))
  | Some key => editAdvanced base "collectionMode" key
  end.

Definition sort_dict : list (string * Z) :=
  [("release", 0); ("alpha", 1); ("custom", 2)].

Definition sortUpdate (sort : option string) : M unit :=
  match dict_get sort_dict sort with
  | None =>
      raise (BadRequest ("Unknown sort dir: " +:+ PyStr.of_opt sort
                         +:+ ". Options: " +:+ PyStr.of_list (dict_keys sort_dict)))
  | Some key => editAdvanced base "collectionSort" key
  end.

(** [if items and not isinstance(items, (list, tuple)): items = [items]] *)
Definition normalize (items : items_arg) : items_arg :=
  match items with
  | OneItem i => ItemSeq [i]
  | _ => items
  end.

(** [for item in items]: the sequence the loop runs over *)
Definition iterate (items : items_arg) : result (list Item.t) :=
  match items with
  | ItemSeq l => Ok l
  | ItemsNone => Raise (TypeError "'NoneType' object is not iterable")
  | OneItem _ => Raise (TypeError "object is not iterable")
  end.

(** [not items] *)
Definition falsy (items : items_arg) : bool :=
  match items with
  | ItemsNone => true
  | OneItem _ => false
  | ItemSeq l => match l with [] => true | _ :: _ => false end
  end.

(** The loop of [addItems], from the rating keys collected so far *)
Fixpoint addItems_loop (c : Collection) (items : list Item.t) (ratingKeys : list string)
  : result (list string) :=
  match items with
  | [] => Ok ratingKeys
  | item :: rest =>
      if bool_decide (Some (Item.type item) ≠ subtype c)
      then Raise (BadRequest ("Can not mix media types when building a collection: "
                              +:+ PyStr.of_opt (subtype c) +:+ " and " +:+ Item.type item))
      else addItems_loop c rest (ratingKeys ++ [PyStr.of_int (Item.ratingKey item)])
  end.

Definition addItems (items : items_arg) : M unit :=
  c ← get_self;
  if smart c then raise (BadRequest "Cannot add items to a smart collection.") else
  let items := normalize items in
  l ← lift_result (iterate items);
  ratingKeys ← lift_result (addItems_loop c l []);
  let ratingKeys := PyStr.join "," ratingKeys in
  let uri := _uriRoot server +:+ "/library/metadata/" +:+ ratingKeys in
  let key := key c +:+ "/items" +:+ joinArgs utils [("uri", PStr uri)] in
  liftIO (query key PUT);;
  mret tt.

(** The loop of [removeItems] *)
Fixpoint removeItems_loop (c : Collection) (items : list Item.t) : IO unit :=
  match items with
  | [] => mret tt
  | item :: rest =>
      let key := key c +:+ "/items/" +:+ PyStr.of_int (Item.ratingKey item) in
      query key DELETE;;
      removeItems_loop c rest
  end.

Definition removeItems (items : items_arg) : M unit :=
  c ← get_self;
  if smart c then raise (BadRequest "Cannot remove items from a smart collection.") else
  let items := normalize items in
  l ← lift_result (iterate items);
  liftIO (removeItems_loop c l).

Definition updateFilters (args : SearchArgs) : M unit :=
  c ← get_self;
  if negb (smart c) then raise (BadRequest "Cannot update filters for a regular collection.") else
  section ← section;
  searchKey ← liftIO (_buildSearchKey server section args);
  let uri := _uriRoot server +:+ searchKey in
  c ← get_self;
  let key := key c +:+ "/items" +:+ joinArgs utils [("uri", PStr uri)] in
  liftIO (query key PUT);;
  mret tt.

(** [isinstance(section, LibrarySection)], else [server.library.section(section)] *)
Definition resolve_section (section : section_arg) : IO LibrarySection :=
  match section with
  | SectionObj s => mret s
  | SectionName name => library_section server name
  end.

(** [server.query(key, method=server._session.post)[0]], then [cls(server, data, initpath=key)] *)
Definition post_and_build (key : string) : IO Collection :=
  data ← query key POST;
  match children data with
  | [] => raise (IndexError "child index out of range")
  | d :: _ => lift_result (_loadData d)
  end.

(** The loop of [_create] *)
Fixpoint _create_loop (itemType : string) (items : list Item.t) (ratingKeys : list string)
  : result (list string) :=
  match items with
  | [] => Ok ratingKeys
  | item :: rest =>
      if bool_decide (Item.type item ≠ itemType)
      then Raise (BadRequest "Can not mix media types when building a collection.")
      else _create_loop itemType rest (ratingKeys ++ [PyStr.of_int (Item.ratingKey item)])
  end.

Definition _create (title : string) (section : section_arg) (items : items_arg) : IO Collection :=
  if falsy items
  then raise (BadRequest "Must include items to add when creating new collection.") else
  section ← resolve_section section;
  let items := normalize items in
  l ← lift_result (iterate items);
  match l with
  | [] => raise (IndexError "list index out of range")
  | first :: _ =>
      let itemType := Item.type first in
      ratingKeys ← lift_result (_create_loop itemType l []);
      let ratingKeys := PyStr.join "," ratingKeys in
      let uri := _uriRoot server +:+ "/library/metadata/" +:+ ratingKeys in
      type_code ← lift_result (searchType utils itemType);
      let key := "/library/collections" +:+ joinArgs utils
                   [("uri", PStr uri); ("type", PInt type_code); ("title", PStr title);
                    ("smart", PInt 0); ("sectionId", section_key section)] in
      post_and_build key
  end.

(** [libtype or section.TYPE] *)
Definition libtype_or (l : option string) (d : string) : string :=
  match l with
  | Some (String _ _ as s) => s
  | _ => d
  end.

Definition _createSmart (title : string) (section : section_arg) (args : SearchArgs)
  : IO Collection :=
  section ← resolve_section section;
  let v_libtype := libtype_or (libtype args) (section_TYPE section) in
  searchKey ← _buildSearchKey server section
                {| libtype := Some v_libtype; limit := limit args; sort := sort args;
                   filters := filters args; kwargs := kwargs args |};
  let uri := _uriRoot server +:+ searchKey in
  type_code ← lift_result (searchType utils v_libtype);
  let key := "/library/collections" +:+ joinArgs utils
               [("uri", PStr uri); ("type", PInt type_code); ("title", PStr title);
                ("smart", PInt 1); ("sectionId", section_key section)] in
  post_and_build key.

Definition create (title : string) (section : section_arg) (items : items_arg)
    (smart : bool) (args : SearchArgs) : IO Collection :=
  if smart then _createSmart title section args
  else _create title section items.

End Collection.

(** ** More Python primitives *)

(** [l[k]] for a list and an int: a negative index counts from the end. *)
Definition list_index {A} (l : list A) (k : Z) : result A :=
  let n := Z.of_nat (length l) in
  let j := if k <? 0 then k + n else k in
  if (0 <=? j) && (j <? n)
  then match l !! Z.to_nat j with
       | Some a => Ok a
       | None => Raise (IndexError "list index out of range")
       end
  else Raise (IndexError "list index out of range").

(** [d[k] = v] on a dict with its keys in insertion order: a key that is
    there keeps its place. *)
Fixpoint dict_set {V} (d : list (string * V)) (k : string) (v : V) : list (string * V) :=
  match d with
  | [] => [(k, v)]
  | (k', v') :: d' =>
      if String.eqb k' k then (k', v) :: d' else (k', v') :: dict_set d' k v
  end.

(** [d.update(e)] *)
Definition dict_update {V} (d e : list (string * V)) : list (string * V) :=
  fold_left (fun acc kv => dict_set acc (fst kv) (snd kv)) e d.

Module PyUrl.

(** The characters [urllib.parse.quote] never quotes: letters, digits and
    [_.-~]. *)
Definition always_safe (n : N) : bool :=
  ((65 <=? n) && (n <=? 90) || (97 <=? n) && (n <=? 122) || (48 <=? n) && (n <=? 57)
   || (n =? 95) || (n =? 46) || (n =? 45) || (n =? 126))%N.

Definition hex_digit (n : N) : ascii :=
  if (n <? 10)%N then ascii_of_N (48 + n) else ascii_of_N (55 + n).

(** One byte as [quote_plus] writes it: itself when safe, [+] for a space,
    [%XX] otherwise. *)
Definition quote_byte (n : N) : string :=
  if always_safe n then String (ascii_of_N n) EmptyString
  else if (n =? 32)%N then "+"
  else String "%" (String (hex_digit (n / 16)) (String (hex_digit (n mod 16)) EmptyString)).

(** The UTF-8 bytes of a code point below 256 *)
Definition utf8 (c : ascii) : list N :=
  let n := N_of_ascii c in
  if (n <? 128)%N then [n] else [(192 + n / 64)%N; (128 + n mod 64)%N].

(** [urllib.parse.quote_plus(s)] *)
Fixpoint quote_plus (s : string) : string :=
  match s with
  | EmptyString => EmptyString
  | String c s' => String.concat "" (map quote_byte (utf8 c)) +:+ quote_plus s'
  end.

End PyUrl.

(** ** More collaborators *)

(** What the base class does for [edit] and [delete] *)
Record PartialObject := {
  super_edit : list (string * pyval) -> M unit;
  super_delete : M unit
}.

(** [plexapi.playqueue]: the play queue type, the options handed on, and
    [PlayQueue.create]. *)
Record PlayLib := {
  PlayQueue : Type;
  PlayOpts : Type;
  PlayQueue_create : list Item.t -> PlayOpts -> IO PlayQueue
}.

(** [plexapi.sync] and the parts of the server and its account that [sync]
    uses. *)
Record SyncLib := {
  Policy : Type;
  MediaSettings : Type;
  MyPlexAccount : Type;
  MyPlexDevice : Type;
  Synced : Type;
  allowSync : LibrarySection -> bool;
  machineIdentifier : string;
  myPlexAccount : IO MyPlexAccount;
  Policy_create : option Z -> bool -> result Policy;
  createVideo : option Z -> result MediaSettings;
  createMusic : option Z -> result MediaSettings;
  createPhoto : option string -> result MediaSettings
}.

(** A [SyncItem], with the attributes [sync] sets *)
Record SyncItem (lib : SyncLib) := {
  si_title : option string;
  si_rootTitle : option string;
  si_contentType : string;
  si_metadataType : option string;
  si_machineIdentifier : string;
  si_location : string;
  si_policy : Policy lib;
  si_mediaSettings : MediaSettings lib
}.
Arguments si_title {lib} s.
Arguments si_rootTitle {lib} s.
Arguments si_contentType {lib} s.
Arguments si_metadataType {lib} s.
Arguments si_machineIdentifier {lib} s.
Arguments si_location {lib} s.
Arguments si_policy {lib} s.
Arguments si_mediaSettings {lib} s.

(** ** More of the class *)

Section CollectionMore.

Variable utils : Utils.
Variable server : Server.
Variable base : Base.
Variable partial : PartialObject.
Variable playlib : PlayLib.
Variable synclib : SyncLib.

(** [MyPlexAccount.sync(sync_item, client=client, clientId=clientId)] *)
Variable myplex_sync :
  MyPlexAccount synclib -> SyncItem synclib -> option (MyPlexDevice synclib) ->
  option string -> IO (Synced synclib).

Definition __len__ : M Z :=
  l ← items server base;
  mret (Z.of_nat (length l)).

(** [__getitem__] with an int *)
Definition __getitem__ (k : Z) : M Item.t :=
  l ← items server base;
  lift_result (list_index l k).

Definition edit (title titleSort contentRating summary : option string)
    (kwargs : list (string * pyval)) : M unit :=
  let args : list (string * pyval) := [] in
  let args := match title with
              | Some v => dict_set (dict_set args "title.value" (PStr v)) "title.locked" (PInt 1)
              | None => args
              end in
  let args := match titleSort with
              | Some v => dict_set (dict_set args "titleSort.value" (PStr v)) "titleSort.locked" (PInt 1)
              | None => args
              end in
  let args := match contentRating with
              | Some v => dict_set (dict_set args "contentRating.value" (PStr v))
                                   "contentRating.locked" (PInt 1)
              | None => args
              end in
  let args := match summary with
              | Some v => dict_set (dict_set args "summary.value" (PStr v)) "summary.locked" (PInt 1)
              | None => args
              end in
  let args := dict_update args kwargs in
  super_edit partial args.

Definition delete : M unit := super_delete partial.

Definition playQueue (opts : PlayOpts playlib) : M (PlayQueue playlib) :=
  l ← items server base;
  liftIO (PlayQueue_create playlib l opts).

(** [title if title else self.title] *)
Definition title_or (title : option string) (d : option string) : option string :=
  match title with
  | Some (String _ _ as s) => Some s
  | _ => d
  end.

Definition sync (videoQuality : option Z) (photoResolution : option string)
    (audioBitrate : option Z) (client : option (MyPlexDevice synclib))
    (clientId : option string) (limit : option Z) (unwatched : bool)
    (title' : option string) : M (Synced synclib) :=
  s ← section base;
  if negb (allowSync synclib s) then raise (BadRequest "The collection is not allowed to sync") else
  myplex ← liftIO (myPlexAccount synclib);
  c ← get_self;
  let v_title := title_or title' (title c) in
  let v_rootTitle := title c in
  v_contentType ← lift_result (listType c);
  let v_metadataType := metadataType c in
  let v_machineIdentifier := machineIdentifier synclib in
  let v_location := "library:///directory/" +:+
                    PyUrl.quote_plus (key c +:+ "/children?excludeAllLeaves=1") in
  v_policy ← lift_result (Policy_create synclib limit unwatched);
  v_mediaSettings ←
    (if isVideo c then lift_result (createVideo synclib videoQuality)
     else if isAudio c then lift_result (createMusic synclib audioBitrate)
     else if isPhoto c then lift_result (createPhoto synclib photoResolution)
     else raise (Unsupported "Unsupported collection content"));
  liftIO (myplex_sync myplex
            {| si_title := v_title; si_rootTitle := v_rootTitle;
               si_contentType := v_contentType; si_metadataType := v_metadataType;
               si_machineIdentifier := v_machineIdentifier; si_location := v_location;
               si_policy := v_policy; si_mediaSettings := v_mediaSettings |}
            client clientId).

End CollectionMore.

(** ** Vocabulary of the properties *)

Definition video_kinds : list string := ["movie"; "show"; "season"; "episode"].
Definition audio_kinds : list string := ["artist"; "album"; "track"].
Definition photo_kinds : list string := ["photoalbum"; "photo"].

(** The key with its trailing [suffix] taken off, when it ends in it *)
Definition strip_suffix (s suffix : string) : string :=
  if PyStr.endswith s suffix
  then PyStr.take (String.length s - String.length suffix) s
  else s.

(** The request that removes one member *)
Definition delete_request (c : Collection) (i : Item.t) : request :=
  Request DELETE (key c +:+ "/items/" +:+ PyStr.of_int (Item.ratingKey i)).

(** The request that adds the members with the given identifiers *)
Definition add_request (utils : Utils) (server : Server) (c : Collection) (ids : list Z) : request :=
  Request PUT
    (key c +:+ "/items" +:+
     joinArgs utils
       [("uri", PStr (_uriRoot server +:+ "/library/metadata/" +:+
                      PyStr.join "," (map PyStr.of_int ids)))]).

(** The request that lists the members *)
Definition children_request (c : Collection) : request :=
  Request GET (key c +:+ "/children").

(** The transport answers each of the requests [rs], issued one after the
    other after the requests [t]. *)
Fixpoint acknowledged (server : Server) (t rs : list request) : Prop :=
  match rs with
  | [] => True
  | r :: rs' => (exists data, respond server t r = Reply data) /\ acknowledged server (t ++ [r]) rs'
  end.

(** [n] calls of [items()] in a row, with their results *)
Fixpoint call_items (server : Server) (base : Base) (n : nat) : M (list (list Item.t)) :=
  match n with
  | O => mret []
  | S k =>
      l ← items server base;
      ls ← call_items server base k;
      mret (l :: ls)
  end.

(** Two titles are the same up to case. *)
Definition same_title (a b : string) : Prop := PyStr.lower a = PyStr.lower b.

(** A result that is a value *)
Definition is_ok {A} (r : result A) : Prop := exists a, r = Ok a.

(** The casts that parsing applies to the attributes of [data] succeed. *)
Definition parses (utils : Utils) (data : Element) : Prop :=
  is_ok (toDatetime utils (attr data "addedAt")) /\
  is_ok (cast_int_opt utils (attr data "childCount")) /\
  is_ok (cast_int utils (attr_or data "collectionMode" "-1")) /\
  is_ok (cast_bool utils (attr_or data "collectionPublished" "0")) /\
  is_ok (cast_int utils (attr_or data "collectionSort" "0")) /\
  is_ok (cast_int_opt utils (attr data "index")) /\
  is_ok (cast_int_opt utils (attr data "librarySectionID")) /\
  is_ok (cast_int_opt utils (attr data "maxYear")) /\
  is_ok (cast_int_opt utils (attr data "minYear")) /\
  is_ok (cast_int_opt utils (attr data "ratingCount")) /\
  is_ok (cast_int_opt utils (attr data "ratingKey")) /\
  is_ok (cast_bool utils (attr_or data "smart" "0")) /\
  is_ok (toDatetime utils (attr data "updatedAt")).

(** ** A sample environment

    One instance of the collaborators, to run the methods on concrete
    inputs. *)

Definition ex_cast_int (s : string) : result Z :=
  match NilZero.int_of_string s with
  | Some n => Ok (Z.of_int n)
  | None => Raise (ValueError s)
  end.

Definition ex_cast_bool (s : string) : result bool :=
  if String.eqb s "1" then Ok true
  else if String.eqb s "0" then Ok false
  else Raise (ValueError s).

Definition ex_opt {A} (f : string -> result A) (o : option string) : result (option A) :=
  match o with
  | Some s => v ← f s; mret (Some v)
  | None => Ok None
  end.

Definition ex_pyval (v : pyval) : string :=
  match v with
  | PStr s => s
  | PInt n => PyStr.of_int n
  end.

Definition ex_joinArgs (args : list (string * pyval)) : string :=
  match args with
  | [] => ""
  | _ :: _ => "?" +:+ PyStr.join "&" (map (fun kv => fst kv +:+ "=" +:+ ex_pyval (snd kv)) args)
  end.

Definition ex_searchType (t : string) : result Z :=
  if String.eqb t "movie" then Ok 1
  else if String.eqb t "show" then Ok 2
  else Raise (NotFound ("Unknown libtype: " +:+ t)).

Definition ex_utils : Utils :=
  {| cast_int := ex_cast_int;
     cast_int_opt := ex_opt ex_cast_int;
     cast_bool := ex_cast_bool;
     toDatetime := ex_opt ex_cast_int;
     joinArgs := ex_joinArgs;
     searchType := ex_searchType |}.

Definition ex_section : LibrarySection := {| section_key := PInt 1; section_TYPE := "movie" |}.

Definition ex_member (k : Z) (t : string) : Element :=
  Elem (<["type" := "movie"]> (<["ratingKey" := PyStr.of_int k]> (<["title" := t]> ∅))) [].

(** The sample server answers every request with a collection of two
    members, which is also its one child. *)
Definition ex_answer : Element :=
  Elem (<["key" := "/library/collections/7/children"]> (<["subtype" := "movie"]> ∅))
       [ex_member 11 "FOO"; ex_member 12 "Bar"].

Definition ex_server : Server :=
  {| _uriRoot := "server://abc/com.plexapp.plugins.library";
     respond := fun _ _ => Reply ex_answer;
     library_section := fun _ => mret ex_section;
     _buildSearchKey := fun _ _ => mret "/library/sections/1/all?type=1" |}.

Definition ex_buildItem (e : Element) : Item.t :=
  {| Item.type := attr_or e "type" "";
     Item.ratingKey := match ex_cast_int (attr_or e "ratingKey" "0") with Ok n => n | Raise _ => 0 end;
     Item.title := attr_or e "title" "" |}.

Definition ex_base : Base :=
  {| buildItem := ex_buildItem;
     findItems := fun _ _ => [];
     editAdvanced := fun k v =>
       c ← get_self;
       liftIO (query ex_server (key c +:+ "/prefs?" +:+ k +:+ "=" +:+ PyStr.of_int v) PUT);;
       mret tt;
     super_section := mret ex_section |}.

(** A regular collection of movies, and the same as a smart one *)
Definition ex_collection (is_smart : bool) : Collection :=
  {| addedAt := None; art := None; artBlurHash := None; childCount := Some 2;
     collectionMode := -1; collectionPublished := false; collectionSort := 0;
     content := None; contentRating := None; fields := []; guid := None; index := None;
     key := "/library/collections/7"; labels := []; librarySectionID := Some 1;
     librarySectionKey := None; librarySectionTitle := None; maxYear := None;
     minYear := None; ratingCount := None; ratingKey := Some 7; smart := is_smart;
     subtype := Some "movie"; summary := None; thumb := None; thumbBlurHash := None;
     title := Some "Favourites"; titleSort := Some "Favourites"; type := Some "collection";
     updatedAt := None; _items := None; _section := None |}.

Definition ex_state (is_smart : bool) : State :=
  {| self := ex_collection is_smart; trace := [] |}.

Definition ex_movie (k : Z) (t : string) : Item.t :=
  {| Item.type := "movie"; Item.ratingKey := k; Item.title := t |}.

Definition ex_track (k : Z) (t : string) : Item.t :=
  {| Item.type := "track"; Item.ratingKey := k; Item.title := t |}.

Definition ex_args : SearchArgs :=
  {| libtype := None; limit := None; sort := None; filters := ∅; kwargs := ∅ |}.
(** The value that [edit] gives a key from its four named arguments *)
Definition edit_named (title titleSort contentRating summary : option string) (k : string)
  : option pyval :=
  if String.eqb k "title.value" then PStr <$> title
  else if String.eqb k "title.locked" then (fun _ => PInt 1) <$> title
  else if String.eqb k "titleSort.value" then PStr <$> titleSort
  else if String.eqb k "titleSort.locked" then (fun _ => PInt 1) <$> titleSort
  else if String.eqb k "contentRating.value" then PStr <$> contentRating
  else if String.eqb k "contentRating.locked" then (fun _ => PInt 1) <$> contentRating
  else if String.eqb k "summary.value" then PStr <$> summary
  else if String.eqb k "summary.locked" then (fun _ => PInt 1) <$> summary
  else None.

(** ** More of the sample environment *)

Definition ex_partial : PartialObject :=
  {| super_edit := fun args =>
       c ← get_self;
       liftIO (query ex_server (key c +:+ ex_joinArgs args) PUT);;
       mret tt;
     super_delete :=
       c ← get_self;
       liftIO (query ex_server (key c) DELETE);;
       mret tt |}.

Definition ex_playlib : PlayLib :=
  {| PlayQueue := list Z;
     PlayOpts := unit;
     PlayQueue_create := fun l _ => mret (map Item.ratingKey l) |}.

Definition ex_synclib (allowed : bool) : SyncLib :=
  {| Policy := option Z * bool;
     MediaSettings := string;
     MyPlexAccount := unit;
     MyPlexDevice := unit;
     Synced := string;
     allowSync := fun _ => allowed;
     machineIdentifier := "abc";
     myPlexAccount := mret tt;
     Policy_create := fun l u => Ok (l, u);
     createVideo := fun _ => Ok "video settings";
     createMusic := fun _ => Ok "music settings";
     createPhoto := fun r =>
       match r with
       | Some _ => Ok "photo settings"
       | None => Raise (BadRequest "Unexpected photo quality")
       end |}.

(** The sample account answers a sync request with the location it was
    given. *)
Definition ex_myplex_sync (allowed : bool) (a : MyPlexAccount (ex_synclib allowed))
    (si : SyncItem (ex_synclib allowed)) (client : option (MyPlexDevice (ex_synclib allowed)))
    (clientId : option string) : IO (Synced (ex_synclib allowed)) :=
  mret (si_location si).

(** A server whose transport refuses every request *)
Definition ex_down_server : Server :=
  {| _uriRoot := "server://abc/com.plexapp.plugins.library";
     respond := fun _ _ => Fault (ServerError "connection refused");
     library_section := fun _ => mret ex_section;
     _buildSearchKey := fun _ _ => mret "/library/sections/1/all?type=1" |}.

(** A server that answers with an empty container *)
Definition ex_empty_server : Server :=
  {| _uriRoot := "server://abc/com.plexapp.plugins.library";
     respond := fun _ _ => Reply (Elem ∅ []);
     library_section := fun _ => mret ex_section;
     _buildSearchKey := fun _ _ => mret "/library/sections/1/all?type=1" |}.

(** A server whose transport changes its mind after [n] requests: it
    answers the first [n] and refuses the rest, or the other way round. *)
Definition ex_server_after (n : nat) (answers_first : bool) : Server :=
  {| _uriRoot := "server://abc/com.plexapp.plugins.library";
     respond := fun t _ =>
       if xorb (length t <? n)%nat answers_first
       then Fault (ServerError "connection refused")
       else Reply ex_answer;
     library_section := fun _ => mret ex_section;
     _buildSearchKey := fun _ _ => mret "/library/sections/1/all?type=1" |}.

(** The sample collection with three members stored *)
Definition ex_listed_state : State :=
  {| self := set_items (ex_collection false)
               (Some [ex_movie 1 "Bar"; ex_movie 2 "foo"; ex_movie 3 "FOO"]);
     trace := [] |}.

(** A collection whose subtype is none of the media kinds *)
Definition ex_odd_collection : Collection :=
  {| addedAt := None; art := None; artBlurHash := None; childCount := Some 2;
     collectionMode := -1; collectionPublished := false; collectionSort := 0;
     content := None; contentRating := None; fields := []; guid := None; index := None;
     key := "/library/collections/8"; labels := []; librarySectionID := Some 1;
     librarySectionKey := None; librarySectionTitle := None; maxYear := None;
     minYear := None; ratingCount := None; ratingKey := Some 8; smart := false;
     subtype := Some "collection"; summary := None; thumb := None; thumbBlurHash := None;
     title := Some "Nested"; titleSort := Some "Nested"; type := Some "collection";
     updatedAt := None; _items := None; _section := None |}.

(** * Properties *)

(** ** Strings *)

Example replace_trailing :
  PyStr.replace "/library/collections/7/children" "/children" "" = "/library/collections/7".
Proof. reflexivity. Qed.

Example replace_overlap : PyStr.replace "aaaa" "aa" "b" = "bb".
Proof. reflexivity. Qed.

Example replace_empty_old : PyStr.replace "abc" "" "X" = "XaXbXcX".
Proof. reflexivity. Qed.

Example lower_mixed : PyStr.lower "FoO Bar 9" = "foo bar 9".
Proof. reflexivity. Qed.

Example lower_char_bounds :
  map PyStr.lower_char (map ascii_of_N [64; 65; 90; 91; 192; 215; 222; 223]%N) =
  map ascii_of_N [64; 97; 122; 91; 224; 215; 254; 223]%N.
Proof. reflexivity. Qed.

Example of_int_examples :
  PyStr.of_int 0 = "0" /\ PyStr.of_int 1204 = "1204" /\ PyStr.of_int (-5) = "-5".
Proof. repeat split. Qed.

Example join_examples :
  PyStr.join "," [] = "" /\ PyStr.join "," ["7"] = "7" /\ PyStr.join "," ["7"; "8"; "9"] = "7,8,9".
Proof. repeat split. Qed.

Example of_list_example :
  PyStr.of_list ["release"; "alpha"] = "['release', 'alpha']".
Proof. reflexivity. Qed.

Example endswith_examples :
  PyStr.endswith "/a/children" "/children" = true /\
  PyStr.endswith "/children/a" "/children" = false /\
  PyStr.endswith "ren" "/children" = false.
Proof. repeat split. Qed.



Lemma app_cons (c : ascii) (s t : string) : String c s +:+ t = String c (s +:+ t).
Proof. reflexivity. Qed.

Lemma app_empty_l (s : string) : "" +:+ s = s.
Proof. reflexivity. Qed.

Lemma app_empty_r (s : string) : s +:+ "" = s.
Proof. induction s as [|c s IH]; [reflexivity | rewrite app_cons, IH; reflexivity]. Qed.

Lemma startswith_cons (c : ascii) (s : string) (a : ascii) (o : string) :
  PyStr.startswith (String c s) (String a o) = true <-> a = c /\ PyStr.startswith s o = true.
Proof.
  unfold PyStr.startswith; simpl. destruct (ascii_dec a c) as [->|Hne].
  - tauto.
  - split; [discriminate | intros [? _]; contradiction].
Qed.

Lemma startswith_empty (s : string) : PyStr.startswith s "" = true.
Proof. destruct s; reflexivity. Qed.

(** A match of [o] that runs into a following [a] lies before it, when [a]
    is not a character of [o]. *)
Lemma startswith_before (a : ascii) (z o s : string) :
  (forall i, String.get i o <> Some a) ->
  PyStr.startswith (s +:+ String a z) o = true ->
  PyStr.startswith s o = true.
Proof.
  revert s. induction o as [|b o IH]; intros s Hnot H.
  - apply startswith_empty.
  - assert (Hb : b <> a) by (intros ->; apply (Hnot 0%nat); reflexivity).
    destruct s as [|d s].
    + rewrite app_empty_l in H. apply startswith_cons in H as [? _]. contradiction.
    + rewrite app_cons in H. apply startswith_cons in H as [E H]. subst d.
      apply startswith_cons. split; [reflexivity|].
      apply IH; [|exact H]. intros i. apply (Hnot (S i)).
Qed.

Lemma contains_cons (c : ascii) (s old : string) :
  PyStr.contains (String c s) old = false <->
  PyStr.startswith (String c s) old = false /\ PyStr.contains s old = false.
Proof. simpl. apply orb_false_iff. Qed.

(** [replace] leaves a string without a match as it is. *)
Lemma replace_scan_absent (old new s : string) :
  PyStr.contains s old = false -> PyStr.replace_scan old new 0 s = s.
Proof.
  induction s as [|c s IH]; intros H; [reflexivity|].
  apply contains_cons in H as [H1 H2].
  cbn [PyStr.replace_scan]. rewrite H1, (IH H2). reflexivity.
Qed.

Lemma children_no_slash (i : nat) : String.get i "children" <> Some "/"%char.
Proof. do 9 (destruct i as [|i]; [discriminate|]). discriminate. Qed.

(** No match of ["/children"] can begin inside [p] and end inside a
    following ["/children"]. *)
Lemma startswith_children_app (p : string) :
  p <> "" ->
  PyStr.startswith (p +:+ "/children") "/children" = true ->
  PyStr.startswith p "/children" = true.
Proof.
  destruct p as [|c p]; [congruence|]. intros _ H.
  rewrite app_cons in H. apply startswith_cons in H as [E H]. subst c.
  apply startswith_cons. split; [reflexivity|].
  apply (startswith_before "/" "children"); [apply children_no_slash | exact H].
Qed.

Lemma replace_children_suffix (p : string) :
  PyStr.contains p "/children" = false ->
  PyStr.replace (p +:+ "/children") "/children" "" = p.
Proof.
  unfold PyStr.replace. induction p as [|c p IH]; intros H; [reflexivity|].
  apply contains_cons in H as [H1 H2].
  rewrite app_cons. cbn [PyStr.replace_scan].
  destruct (PyStr.startswith (String c (p +:+ "/children")) "/children") eqn:E.
  - rewrite <- app_cons in E. apply startswith_children_app in E; congruence.
  - rewrite (IH H2). reflexivity.
Qed.

Lemma replace_children_absent (s : string) :
  PyStr.contains s "/children" = false -> PyStr.replace s "/children" "" = s.
Proof. apply replace_scan_absent. Qed.

(** ** Parsing *)

Section Parsing.

Variable utils : Utils.
Variable base : Base.

Ltac step_casts :=
  repeat match goal with
    | |- context [match ?r with Ok _ => _ | Raise _ => _ end] =>
        let E := fresh "E" in destruct r eqn:E
    end.

(** [_loadData] returns exactly when the casts of the attributes it reads
    succeed. *)
Lemma _loadData_returns (data : Element) :
  parses utils data <-> exists c, _loadData utils base data = Ok c.
Proof.
  unfold parses, is_ok, _loadData. cbv [mbind result_bind mret result_ret].
  split.
  - intros H. repeat destruct H as [[? ->] H]. destruct H as [? ->]. eauto.
  - step_casts; intros [c H]; try discriminate. repeat split; eauto.
Qed.

Lemma _loadData_key (data : Element) (c : Collection) :
  _loadData utils base data = Ok c ->
  key c = PyStr.replace (attr_or data "key" "") "/children" "".
Proof.
  unfold _loadData. cbv [mbind result_bind mret result_ret].
  step_casts; intros H; try discriminate. injection H as <-. reflexivity.
Qed.

(** C2, as the code has it: parsing stores the [key] attribute (the empty
    string when there is none) with every occurrence of ["/children"]
    taken out, scanning from the left.  So a key whose only occurrence is
    the trailing one is stored with that suffix stripped, and a key
    without any occurrence is stored unchanged. *)
Theorem parsed_key_without_children (data : Element) :
  parses utils data ->
  exists c,
    _loadData utils base data = Ok c /\
    key c = PyStr.replace (attr_or data "key" "") "/children" "" /\
    (forall p, PyStr.contains p "/children" = false ->
               attr_or data "key" "" = p +:+ "/children" -> key c = p) /\
    (PyStr.contains (attr_or data "key" "") "/children" = false ->
     key c = attr_or data "key" "").
Proof.
  intros H. apply _loadData_returns in H as [c H]. exists c.
  pose proof (_loadData_key data c H) as K.
  split; [exact H|]. split; [exact K|]. split.
  - intros p Hp E. rewrite K, E. apply replace_children_suffix, Hp.
  - intros Hk. rewrite K. apply replace_children_absent, Hk.
Qed.

End Parsing.

(** ** Classification *)

Lemma elem_of_video (s : string) :
  s ∈ ({[ "movie"; "show"; "season"; "episode" ]} : gset string) <-> Some s ∈ map Some video_kinds.
Proof.
  unfold video_kinds; simpl. rewrite !elem_of_union, !elem_of_singleton, !elem_of_cons, elem_of_nil.
  intuition congruence.
Qed.

Lemma elem_of_audio (s : string) :
  s ∈ ({[ "artist"; "album"; "track" ]} : gset string) <-> Some s ∈ map Some audio_kinds.
Proof.
  unfold audio_kinds; simpl. rewrite !elem_of_union, !elem_of_singleton, !elem_of_cons, elem_of_nil.
  intuition congruence.
Qed.

Lemma elem_of_photo (s : string) :
  s ∈ ({[ "photoalbum"; "photo" ]} : gset string) <-> Some s ∈ map Some photo_kinds.
Proof.
  unfold photo_kinds; simpl. rewrite !elem_of_union, !elem_of_singleton, !elem_of_cons, elem_of_nil.
  intuition congruence.
Qed.

Lemma None_not_kind (l : list string) : (None : option string) ∉ map Some l.
Proof. induction l as [|x l IH]; simpl; [apply not_elem_of_nil|]. rewrite not_elem_of_cons. split; [discriminate | exact IH]. Qed.

Lemma isVideo_spec (c : Collection) : isVideo c = true <-> subtype c ∈ map Some video_kinds.
Proof.
  unfold isVideo. destruct (subtype c) as [s|].
  - rewrite bool_decide_eq_true. apply elem_of_video.
  - split; [discriminate | intros H; destruct (None_not_kind _ H)].
Qed.

Lemma isAudio_spec (c : Collection) : isAudio c = true <-> subtype c ∈ map Some audio_kinds.
Proof.
  unfold isAudio. destruct (subtype c) as [s|].
  - rewrite bool_decide_eq_true. apply elem_of_audio.
  - split; [discriminate | intros H; destruct (None_not_kind _ H)].
Qed.

Lemma isPhoto_spec (c : Collection) : isPhoto c = true <-> subtype c ∈ map Some photo_kinds.
Proof.
  unfold isPhoto. destruct (subtype c) as [s|].
  - rewrite bool_decide_eq_true. apply elem_of_photo.
  - split; [discriminate | intros H; destruct (None_not_kind _ H)].
Qed.

(** The three sets of kinds have no member in common. *)
Lemma kinds_disjoint (o : option string) :
  (o ∈ map Some video_kinds -> o ∉ map Some audio_kinds) /\
  (o ∈ map Some video_kinds -> o ∉ map Some photo_kinds) /\
  (o ∈ map Some audio_kinds -> o ∉ map Some photo_kinds).
Proof.
  unfold video_kinds, audio_kinds, photo_kinds; simpl.
  rewrite !elem_of_cons, !elem_of_nil. intuition congruence.
Qed.

(** C3: [isVideo], [isAudio] and [isPhoto] hold exactly on the subtypes of
    their set; [listType] is ["video"], ["audio"] or ["photo"] exactly on
    the same sets, and raises [Unsupported] exactly when the subtype is in
    none of them. *)
Theorem classification_by_subtype (c : Collection) :
  (isVideo c = true <-> subtype c ∈ map Some ["movie"; "show"; "season"; "episode"]) /\
  (isAudio c = true <-> subtype c ∈ map Some ["artist"; "album"; "track"]) /\
  (isPhoto c = true <-> subtype c ∈ map Some ["photoalbum"; "photo"]) /\
  (listType c = Ok "video" <-> subtype c ∈ map Some ["movie"; "show"; "season"; "episode"]) /\
  (listType c = Ok "audio" <-> subtype c ∈ map Some ["artist"; "album"; "track"]) /\
  (listType c = Ok "photo" <-> subtype c ∈ map Some ["photoalbum"; "photo"]) /\
  (listType c = Raise (Unsupported "Unexpected collection type") <->
   subtype c ∉ map Some (["movie"; "show"; "season"; "episode"] ++ ["artist"; "album"; "track"]
                         ++ ["photoalbum"; "photo"])).
Proof.
  pose proof (isVideo_spec c) as V. pose proof (isAudio_spec c) as A.
  pose proof (isPhoto_spec c) as P.
  destruct (kinds_disjoint (subtype c)) as (D1 & D2 & D3).
  unfold video_kinds, audio_kinds, photo_kinds in *.
  rewrite !map_app, !elem_of_app. unfold listType.
  destruct (isVideo c), (isAudio c), (isPhoto c);
    repeat split; try tauto; try discriminate; intros; exfalso;
    intuition (try discriminate).
Qed.

(** ** Operations *)

Ltac run :=
  cbv [mbind mret SE_bind SE_ret raise lift_result liftIO get_self set_self]; simpl.

Lemma state_eta (st : State) : {| self := self st; trace := trace st |} = st.
Proof. destruct st; reflexivity. Qed.

Section Operations.

Variable utils : Utils.
Variable server : Server.
Variable base : Base.

(** *** The smart flag *)

(** C1: on a smart collection [addItems] and [removeItems] raise
    [BadRequest] and leave the state, so the trace of requests, as it
    was; on a regular collection [updateFilters] does. *)
Theorem smart_flag_guards (st : State) :
  (smart (self st) = true ->
   forall items,
     addItems utils server items st =
       (Raise (BadRequest "Cannot add items to a smart collection."), st) /\
     removeItems server items st =
       (Raise (BadRequest "Cannot remove items from a smart collection."), st)) /\
  (smart (self st) = false ->
   forall args,
     updateFilters utils server base args st =
       (Raise (BadRequest "Cannot update filters for a regular collection."), st)).
Proof.
  split; intros H ?.
  - unfold addItems, removeItems. run. rewrite H. split; reflexivity.
  - unfold updateFilters. run. rewrite H. reflexivity.
Qed.

(** *** Mode and sort *)

Lemma dict_get_absent {V} (d : list (string * V)) (s : string) :
  s ∉ dict_keys d -> dict_get d (Some s) = None.
Proof.
  unfold dict_get, dict_keys. induction d as [|[k v] d IH]; intros H; [reflexivity|].
  simpl in H. apply not_elem_of_cons in H as [Hk H].
  cbn [List.find fst]. destruct (String.eqb_spec k s) as [->|_]; [congruence|].
  apply IH, H.
Qed.

(** C6: [modeUpdate] is the advanced-setting edit of [collectionMode]
    with -1, 0, 1, 2 for "default", "hide", "hideItems", "showItems", and
    [sortUpdate] that of [collectionSort] with 0, 1, 2 for "release",
    "alpha", "custom"; on any other string each raises [BadRequest] with
    the options listed and leaves the state as it was. *)
Theorem mode_and_sort_codes :
  modeUpdate base (Some "default") = editAdvanced base "collectionMode" (-1) /\
  modeUpdate base (Some "hide") = editAdvanced base "collectionMode" 0 /\
  modeUpdate base (Some "hideItems") = editAdvanced base "collectionMode" 1 /\
  modeUpdate base (Some "showItems") = editAdvanced base "collectionMode" 2 /\
  sortUpdate base (Some "release") = editAdvanced base "collectionSort" 0 /\
  sortUpdate base (Some "alpha") = editAdvanced base "collectionSort" 1 /\
  sortUpdate base (Some "custom") = editAdvanced base "collectionSort" 2 /\
  (forall s st,
      s ∉ ["default"; "hide"; "hideItems"; "showItems"] ->
      modeUpdate base (Some s) st =
        (Raise (BadRequest ("Unknown collection mode : " +:+ s +:+
                            ". Options ['default', 'hide', 'hideItems', 'showItems']")), st)) /\
  (forall s st,
      s ∉ ["release"; "alpha"; "custom"] ->
      sortUpdate base (Some s) st =
        (Raise (BadRequest ("Unknown sort dir: " +:+ s +:+
                            ". Options: ['release', 'alpha', 'custom']")), st)).
Proof.
  repeat split; try reflexivity.
  - intros s st H. unfold modeUpdate. rewrite (dict_get_absent mode_dict s H). reflexivity.
  - intros s st H. unfold sortUpdate. rewrite (dict_get_absent sort_dict s H). reflexivity.
Qed.

(** *** Adding members *)

Lemma addItems_loop_mismatch (c : Collection) (l : list Item.t) (acc : list string) :
  (exists i, i ∈ l /\ Some (Item.type i) <> subtype c) ->
  exists i, i ∈ l /\ Some (Item.type i) <> subtype c /\
    addItems_loop c l acc =
      Raise (BadRequest ("Can not mix media types when building a collection: "
                         +:+ PyStr.of_opt (subtype c) +:+ " and " +:+ Item.type i)).
Proof.
  revert acc. induction l as [|x l IH]; intros acc [i [Hin Hne]].
  - destruct (not_elem_of_nil _ Hin).
  - simpl. destruct (decide (Some (Item.type x) ≠ subtype c)) as [Hx|Hx].
    + exists x. rewrite bool_decide_eq_true_2 by exact Hx.
      split; [apply list_elem_of_here|]. split; [exact Hx | reflexivity].
    + rewrite bool_decide_eq_false_2 by exact Hx.
      apply elem_of_cons in Hin as [->|Hin]; [contradiction|].
      destruct (IH (acc ++ [PyStr.of_int (Item.ratingKey x)])) as (j & Hj & Hjne & E);
        [exists i; split; assumption|].
      exists j. split; [apply list_elem_of_further, Hj|]. split; [exact Hjne | exact E].
Qed.

Lemma addItems_loop_uniform (c : Collection) (l : list Item.t) (acc : list string) :
  (forall i, i ∈ l -> Some (Item.type i) = subtype c) ->
  addItems_loop c l acc = Ok (acc ++ map (fun i => PyStr.of_int (Item.ratingKey i)) l).
Proof.
  revert acc. induction l as [|x l IH]; intros acc H; simpl.
  - rewrite app_nil_r. reflexivity.
  - rewrite bool_decide_eq_false_2.
    + rewrite IH by (intros i Hi; apply H, list_elem_of_further, Hi).
      rewrite <- app_assoc. reflexivity.
    + intros Hne. apply Hne, H, list_elem_of_here.
Qed.

(** C4: on a regular collection, [addItems] on a list with an item whose
    type is not the collection's subtype raises [BadRequest] with a
    message that names the subtype and the type of such an item, and
    leaves the state, so the trace of requests, as it was. *)
Theorem addItems_rejects_other_type (st : State) (l : list Item.t) :
  smart (self st) = false ->
  (exists i, i ∈ l /\ Some (Item.type i) <> subtype (self st)) ->
  exists i, i ∈ l /\ Some (Item.type i) <> subtype (self st) /\
    addItems utils server (ItemSeq l) st =
      (Raise (BadRequest ("Can not mix media types when building a collection: "
                          +:+ PyStr.of_opt (subtype (self st)) +:+ " and " +:+ Item.type i)),
       st).
Proof.
  intros Hs Hex.
  destruct (addItems_loop_mismatch (self st) l [] Hex) as (i & Hi & Hne & E).
  exists i. split; [exact Hi|]. split; [exact Hne|].
  unfold addItems. run. rewrite Hs, E. reflexivity.
Qed.

(** With items of the collection's subtype only, [addItems] issues the
    one PUT that carries their identifiers. *)
Lemma addItems_uniform (st : State) (l : list Item.t) :
  smart (self st) = false ->
  (forall i, i ∈ l -> Some (Item.type i) = subtype (self st)) ->
  let r := add_request utils server (self st) (map Item.ratingKey l) in
  addItems utils server (ItemSeq l) st =
    (match respond server (trace st) r with
     | Reply _ => Ok tt
     | Fault e => Raise e
     end,
     {| self := self st; trace := trace st ++ [r] |}).
Proof.
  intros Hs H r. unfold addItems. run. rewrite Hs.
  rewrite (addItems_loop_uniform _ _ _ H). simpl.
  unfold query. subst r. unfold add_request. rewrite map_map.
  match goal with |- context [respond server ?t ?q] => destruct (respond server t q) end;
    reflexivity.
Qed.

(** *** Removing members *)

Lemma removeItems_loop_acknowledged (c : Collection) (l : list Item.t) (t : list request) :
  acknowledged server t (map (delete_request c) l) ->
  removeItems_loop server c l t = (Ok tt, t ++ map (delete_request c) l).
Proof.
  revert t. induction l as [|x l IH]; intros t H; simpl.
  - rewrite app_nil_r. reflexivity.
  - destruct H as [[data Hd] H]. run. unfold query at 1.
    fold (delete_request c x). rewrite Hd.
    rewrite (IH _ H), <- app_assoc. reflexivity.
Qed.

(** Whatever the transport does, the requests of [removeItems_loop] are
    the first so many of the DELETE requests of the items, in their
    order. *)
Lemma removeItems_loop_prefix (c : Collection) (l : list Item.t) (t : list request) :
  exists k, (k <= length l)%nat /\
    snd (removeItems_loop server c l t) = t ++ take k (map (delete_request c) l).
Proof.
  revert t. induction l as [|x l IH]; intros t; simpl.
  - exists 0%nat. rewrite app_nil_r. split; [lia | reflexivity].
  - run. unfold query at 1. fold (delete_request c x).
    destruct (respond server t (delete_request c x)).
    + destruct (IH (t ++ [delete_request c x])) as (k & Hk & E).
      exists (S k). split; [lia|]. rewrite E, <- app_assoc. reflexivity.
    + exists 1%nat. split; [lia | reflexivity].
Qed.

(** C7: on a regular collection, [removeItems] on a list of N items issues
    DELETE requests at [<key>/items/<ratingKey>] only, one per item in the
    order of the list: all N of them, and it returns, when the transport
    answers each; the first so many of them in any case. *)
Theorem removeItems_one_delete_per_item (st : State) (l : list Item.t) :
  smart (self st) = false ->
  let issued :=
    map (fun i => Request DELETE (key (self st) +:+ "/items/" +:+ PyStr.of_int (Item.ratingKey i))) l in
  (acknowledged server (trace st) issued ->
   removeItems server (ItemSeq l) st =
     (Ok tt, {| self := self st; trace := trace st ++ issued |})) /\
  length issued = length l /\
  exists k, (k <= length l)%nat /\
    snd (removeItems server (ItemSeq l) st) =
      {| self := self st; trace := trace st ++ take k issued |}.
Proof.
  intros Hs issued. split; [|split; [apply length_map|]].
  - intros Hack. unfold removeItems. run. rewrite Hs.
    rewrite (removeItems_loop_acknowledged _ _ _ Hack). reflexivity.
  - destruct (removeItems_loop_prefix (self st) l (trace st)) as (k & Hk & E).
    exists k. split; [exact Hk|].
    unfold removeItems. run. rewrite Hs.
    destruct (removeItems_loop server (self st) l (trace st)) as [r t'].
    simpl in E. rewrite E. reflexivity.
Qed.

(** C10: on a regular collection, [addItems] on the empty list passes the
    checks and issues one PUT at [<key>/items] whose URI carries no
    identifier, its outcome being the transport's; [removeItems] on the
    empty list returns with the state as it was. *)
Theorem empty_list_edge (st : State) :
  smart (self st) = false ->
  let r := Request PUT (key (self st) +:+ "/items" +:+
                        joinArgs utils [("uri", PStr (_uriRoot server +:+ "/library/metadata/"))]) in
  addItems utils server (ItemSeq []) st =
    (match respond server (trace st) r with
     | Reply _ => Ok tt
     | Fault e => Raise e
     end,
     {| self := self st; trace := trace st ++ [r] |}) /\
  removeItems server (ItemSeq []) st = (Ok tt, st).
Proof.
  intros Hs r. split.
  - rewrite (addItems_uniform st [] Hs); [reflexivity|].
    intros i Hi. destruct (not_elem_of_nil _ Hi).
  - unfold removeItems. run. rewrite Hs. rewrite state_eta. reflexivity.
Qed.

(** *** Listing members *)

(** Once the list is stored, [items] returns it and does nothing else. *)
Lemma items_stored (st : State) (l : list Item.t) :
  _items (self st) = Some l -> items server base st = (Ok l, st).
Proof. intros H. unfold items. run. rewrite H. reflexivity. Qed.

(** The first call, when the transport answers *)
Lemma items_first (st : State) (data : Element) :
  _items (self st) = None ->
  respond server (trace st) (children_request (self st)) = Reply data ->
  items server base st =
    (Ok (map (buildItem base) (children data)),
     {| self := set_items (self st) (Some (map (buildItem base) (children data)));
        trace := trace st ++ [children_request (self st)] |}).
Proof.
  intros H Hr. unfold items. run. rewrite H. unfold fetchItems. run.
  unfold query. fold (children_request (self st)). rewrite Hr. reflexivity.
Qed.

Lemma call_items_stored (n : nat) (st : State) (l : list Item.t) :
  _items (self st) = Some l -> call_items server base n st = (Ok (repeat l n), st).
Proof.
  intros H. induction n as [|n IH]; [reflexivity|].
  cbn [call_items]. cbv [mbind SE_bind]. rewrite (items_stored st l H). cbv beta iota.
  rewrite IH. reflexivity.
Qed.

(** C9: on an object without a stored list, when the transport answers
    the request for [<key>/children], the first call of [items] issues
    that one GET and stores the list it returns; any number of further
    calls return the same list and leave the state, so the trace, as it
    is.  Hence any number of calls, at least one, issue exactly that one
    request. *)
Theorem items_memoized (st : State) (data : Element) :
  _items (self st) = None ->
  respond server (trace st) (Request GET (key (self st) +:+ "/children")) = Reply data ->
  let l := map (buildItem base) (children data) in
  let st' := {| self := set_items (self st) (Some l);
                trace := trace st ++ [Request GET (key (self st) +:+ "/children")] |} in
  items server base st = (Ok l, st') /\
  items server base st' = (Ok l, st') /\
  forall n, call_items server base (S n) st = (Ok (repeat l (S n)), st').
Proof.
  intros H Hr l st'.
  assert (E : items server base st = (Ok l, st')) by (apply items_first; assumption).
  assert (Hst' : _items (self st') = Some l) by reflexivity.
  split; [exact E|]. split; [apply items_stored, Hst'|].
  intros n. cbn [call_items]. cbv [mbind SE_bind].
  rewrite E. cbv beta iota. rewrite (call_items_stored n st' l Hst'). reflexivity.
Qed.

(** *** Looking a member up by title *)

Lemma find_title_some (l : list Item.t) (t : string) :
  (exists i, i ∈ l /\ same_title (Item.title i) t) ->
  exists i, i ∈ l /\ same_title (Item.title i) t /\
    List.find (fun i => String.eqb (PyStr.lower (Item.title i)) (PyStr.lower t)) l = Some i.
Proof.
  intros (j & Hj & Ht).
  destruct (List.find (fun i => String.eqb (PyStr.lower (Item.title i)) (PyStr.lower t)) l)
    as [i|] eqn:E.
  - apply find_some in E as [Hi E]. exists i.
    split; [apply list_elem_of_In, Hi|]. split; [apply String.eqb_eq, E | reflexivity].
  - apply list_elem_of_In in Hj. pose proof (find_none _ _ E j Hj) as Hn.
    apply String.eqb_neq in Hn. contradiction.
Qed.

Lemma find_title_none (l : list Item.t) (t : string) :
  (forall i, i ∈ l -> ~ same_title (Item.title i) t) ->
  List.find (fun i => String.eqb (PyStr.lower (Item.title i)) (PyStr.lower t)) l = None.
Proof.
  intros H.
  destruct (List.find (fun i => String.eqb (PyStr.lower (Item.title i)) (PyStr.lower t)) l)
    as [i|] eqn:E; [|reflexivity].
  apply find_some in E as [Hi E]. apply String.eqb_eq in E.
  destruct (H i); [apply list_elem_of_In, Hi | exact E].
Qed.

(** C8: let [items] return the members [l].  If a member has the title
    asked for, up to case, [item] and [get] return such a member; if none
    has, they raise [NotFound] with a message that quotes the title. *)
Theorem item_by_title (st st' : State) (l : list Item.t) (t : string) :
  items server base st = (Ok l, st') ->
  ((exists i, i ∈ l /\ PyStr.lower (Item.title i) = PyStr.lower t) ->
   exists i, i ∈ l /\ PyStr.lower (Item.title i) = PyStr.lower t /\
     item server base t st = (Ok i, st') /\ get server base t st = (Ok i, st')) /\
  ((forall i, i ∈ l -> PyStr.lower (Item.title i) <> PyStr.lower t) ->
   item server base t st =
     (Raise (NotFound ("Item with title " +:+ PyStr.dquote +:+ t +:+ PyStr.dquote
                       +:+ " not found in the collection")), st') /\
   get server base t st = item server base t st).
Proof.
  intros E. split.
  - intros Hex. destruct (find_title_some l t Hex) as (i & Hi & Ht & F).
    exists i. split; [exact Hi|]. split; [exact Ht|].
    unfold get, item. cbv [mbind SE_bind]. rewrite E, F. split; reflexivity.
  - intros Hall. pose proof (find_title_none l t Hall) as F.
    split; [|reflexivity].
    unfold item. cbv [mbind SE_bind]. rewrite E, F. reflexivity.
Qed.

(** *** Creating a regular collection *)

Lemma _create_loop_uniform (ty : string) (l : list Item.t) (acc : list string) :
  (forall i, i ∈ l -> Item.type i = ty) ->
  _create_loop ty l acc = Ok (acc ++ map (fun i => PyStr.of_int (Item.ratingKey i)) l).
Proof.
  revert acc. induction l as [|x l IH]; intros acc H; simpl.
  - rewrite app_nil_r. reflexivity.
  - rewrite bool_decide_eq_false_2.
    + rewrite IH by (intros i Hi; apply H, list_elem_of_further, Hi).
      rewrite <- app_assoc. reflexivity.
    + intros Hne. apply Hne, H, list_elem_of_here.
Qed.

(** C5: [_create] on no items ([None] or an empty list) raises
    [BadRequest] with the trace as it was.  On a non-empty list of items
    of one type, once the section is resolved and the type has its code,
    it issues the POST at [/library/collections] whose [uri] argument is
    the server's root, [/library/metadata/] and the rating keys of the
    items in their order with commas between, and builds the collection
    from the answer. *)
Theorem create_regular (title : string) (sec : section_arg) (t : list request) :
  (forall items, falsy items = true ->
     _create utils server base title sec items t =
       (Raise (BadRequest "Must include items to add when creating new collection."), t)) /\
  (forall first rest s t1 code,
     (forall i, i ∈ rest -> Item.type i = Item.type first) ->
     resolve_section server sec t = (Ok s, t1) ->
     searchType utils (Item.type first) = Ok code ->
     _create utils server base title sec (ItemSeq (first :: rest)) t =
       post_and_build utils server base
         ("/library/collections" +:+
          joinArgs utils
            [("uri", PStr (_uriRoot server +:+ "/library/metadata/" +:+
                           PyStr.join "," (map (fun i => PyStr.of_int (Item.ratingKey i))
                                               (first :: rest))));
             ("type", PInt code); ("title", PStr title); ("smart", PInt 0);
             ("sectionId", section_key s)]) t1).
Proof.
  split.
  - intros items H. unfold _create. rewrite H. reflexivity.
  - intros first rest s t1 code Hty Hs Hc. unfold _create.
    cbn [falsy normalize iterate]. cbv [mbind SE_bind lift_result]. rewrite Hs.
    rewrite (_create_loop_uniform (Item.type first) (first :: rest) []).
    + rewrite Hc. reflexivity.
    + intros i Hi. apply elem_of_cons in Hi as [->|Hi]; [reflexivity | apply Hty, Hi].
Qed.

(** The POST of [post_and_build] is the one request it issues. *)
Lemma post_and_build_trace (k : string) (t : list request) :
  snd (post_and_build utils server base k t) = t ++ [Request POST k].
Proof.
  unfold post_and_build. cbv [mbind SE_bind]. unfold query.
  destruct (respond server t (Request POST k)) as [data|e]; [|reflexivity].
  destruct (children data); reflexivity.
Qed.

End Operations.

(** ** The properties on the sample environment *)

(** C2, as the claim has it, fails: a key that does not end in
    ["/children"] is stored changed, and a key that ends in it loses more
    than the suffix. *)
Lemma stored_key_counterexample :
  (exists c,
      _loadData ex_utils ex_base (Elem (<["key" := "/children/x"]> ∅) []) = Ok c /\
      PyStr.endswith "/children/x" "/children" = false /\
      key c = "/x" /\ key c <> "/children/x") /\
  (exists c,
      _loadData ex_utils ex_base (Elem (<["key" := "/children/a/children"]> ∅) []) = Ok c /\
      PyStr.endswith "/children/a/children" "/children" = true /\
      strip_suffix "/children/a/children" "/children" = "/children/a" /\
      key c = "/a" /\ key c <> "/children/a").
Proof.
  split; eexists; (split; [vm_compute; reflexivity|]); vm_compute; repeat split; discriminate.
Qed.

(** The sample answer parses. *)
Lemma ex_answer_parses : parses ex_utils ex_answer.
Proof. unfold parses, is_ok. repeat split; eexists; vm_compute; reflexivity. Defined.

(** The key of the sample answer, which ends in its only ["/children"] *)
Lemma parsed_key_without_children_witness :
  parses ex_utils ex_answer /\
  exists c, _loadData ex_utils ex_base ex_answer = Ok c /\ key c = "/library/collections/7".
Proof.
  split; [exact ex_answer_parses|].
  destruct (parsed_key_without_children ex_utils ex_base ex_answer ex_answer_parses)
    as (c & E & _ & K & _).
  exists c. split; [exact E|].
  apply (K "/library/collections/7"); vm_compute; reflexivity.
Defined.

(** The guards on the sample collection, smart and regular *)
Lemma smart_flag_guards_witness :
  smart (self (ex_state true)) = true /\
  smart (self (ex_state false)) = false /\
  addItems ex_utils ex_server (ItemSeq [ex_movie 3 "a"]) (ex_state true) =
    (Raise (BadRequest "Cannot add items to a smart collection."), ex_state true) /\
  removeItems ex_server (ItemSeq [ex_movie 3 "a"]) (ex_state true) =
    (Raise (BadRequest "Cannot remove items from a smart collection."), ex_state true) /\
  updateFilters ex_utils ex_server ex_base ex_args (ex_state false) =
    (Raise (BadRequest "Cannot update filters for a regular collection."), ex_state false).
Proof.
  split; [reflexivity|]. split; [reflexivity|].
  destruct (smart_flag_guards ex_utils ex_server ex_base (ex_state true)) as [Hs _].
  destruct (smart_flag_guards ex_utils ex_server ex_base (ex_state false)) as [_ Hr].
  destruct (Hs eq_refl (ItemSeq [ex_movie 3 "a"])) as [Ha Hd].
  split; [exact Ha|]. split; [exact Hd|]. exact (Hr eq_refl ex_args).
Defined.

(** A mode and a sort that are not in the tables *)
Lemma mode_and_sort_codes_witness :
  ("nope" ∉ ["default"; "hide"; "hideItems"; "showItems"]) /\
  ("nope" ∉ ["release"; "alpha"; "custom"]) /\
  modeUpdate ex_base (Some "nope") (ex_state false) =
    (Raise (BadRequest
       "Unknown collection mode : nope. Options ['default', 'hide', 'hideItems', 'showItems']"),
     ex_state false) /\
  sortUpdate ex_base (Some "nope") (ex_state false) =
    (Raise (BadRequest "Unknown sort dir: nope. Options: ['release', 'alpha', 'custom']"),
     ex_state false).
Proof.
  assert (H1 : "nope" ∉ ["default"; "hide"; "hideItems"; "showItems"])
    by (rewrite !not_elem_of_cons; repeat split; try discriminate; apply not_elem_of_nil).
  assert (H2 : "nope" ∉ ["release"; "alpha"; "custom"])
    by (rewrite !not_elem_of_cons; repeat split; try discriminate; apply not_elem_of_nil).
  split; [exact H1|]. split; [exact H2|].
  destruct (mode_and_sort_codes ex_base) as (_ & _ & _ & _ & _ & _ & _ & Hm & Hs).
  split; [exact (Hm "nope" (ex_state false) H1) | exact (Hs "nope" (ex_state false) H2)].
Defined.

(** A track offered to a collection of movies *)
Lemma addItems_rejects_other_type_witness :
  smart (self (ex_state false)) = false /\
  (exists i, i ∈ [ex_movie 3 "a"; ex_track 4 "b"] /\
             Some (Item.type i) <> subtype (self (ex_state false))) /\
  exists i,
    addItems ex_utils ex_server (ItemSeq [ex_movie 3 "a"; ex_track 4 "b"]) (ex_state false) =
      (Raise (BadRequest ("Can not mix media types when building a collection: movie and "
                          +:+ Item.type i)), ex_state false).
Proof.
  assert (H : exists i, i ∈ [ex_movie 3 "a"; ex_track 4 "b"] /\
                        Some (Item.type i) <> subtype (self (ex_state false))).
  { exists (ex_track 4 "b"). split; [|discriminate].
    apply list_elem_of_further, list_elem_of_here. }
  split; [reflexivity|]. split; [exact H|].
  destruct (addItems_rejects_other_type ex_utils ex_server (ex_state false)
              [ex_movie 3 "a"; ex_track 4 "b"] eq_refl H) as (i & _ & _ & E).
  exists i. exact E.
Defined.

(** Creation with no item and with three movies *)
Lemma create_regular_witness :
  falsy (ItemSeq []) = true /\
  _create ex_utils ex_server ex_base "T" (SectionName "Movies") (ItemSeq []) [] =
    (Raise (BadRequest "Must include items to add when creating new collection."), []) /\
  snd (_create ex_utils ex_server ex_base "T" (SectionName "Movies")
         (ItemSeq [ex_movie 3 "a"; ex_movie 4 "b"; ex_movie 5 "c"]) []) =
    [Request POST
       "/library/collections?uri=server://abc/com.plexapp.plugins.library/library/metadata/3,4,5&type=1&title=T&smart=0&sectionId=1"].
Proof.
  destruct (create_regular ex_utils ex_server ex_base "T" (SectionName "Movies") []) as [He Hn].
  split; [reflexivity|]. split; [exact (He (ItemSeq []) eq_refl)|].
  rewrite (Hn (ex_movie 3 "a") [ex_movie 4 "b"; ex_movie 5 "c"] ex_section [] 1).
  - reflexivity.
  - intros i Hi. apply elem_of_cons in Hi as [->|Hi]; [reflexivity|].
    apply elem_of_cons in Hi as [->|Hi]; [reflexivity|].
    destruct (not_elem_of_nil _ Hi).
  - reflexivity.
  - reflexivity.
Defined.

(** Two members removed *)
Lemma removeItems_one_delete_per_item_witness :
  smart (self (ex_state false)) = false /\
  removeItems ex_server (ItemSeq [ex_movie 3 "a"; ex_movie 4 "b"]) (ex_state false) =
    (Ok tt,
     {| self := ex_collection false;
        trace := [Request DELETE "/library/collections/7/items/3";
                  Request DELETE "/library/collections/7/items/4"] |}).
Proof.
  split; [reflexivity|].
  destruct (removeItems_one_delete_per_item ex_server (ex_state false)
              [ex_movie 3 "a"; ex_movie 4 "b"] eq_refl) as (H & _ & _).
  apply H. simpl. repeat split; eexists; reflexivity.
Defined.

(** The member titled FOO is found by foo; Missing is not found *)
Lemma item_by_title_witness :
  (exists st' l i,
      items ex_server ex_base (ex_state false) = (Ok l, st') /\
      i ∈ l /\ Item.title i = "FOO" /\
      item ex_server ex_base "foo" (ex_state false) = (Ok i, st')) /\
  (exists st',
      item ex_server ex_base "Missing" (ex_state false) =
        (Raise (NotFound ("Item with title " +:+ PyStr.dquote +:+ "Missing" +:+ PyStr.dquote
                          +:+ " not found in the collection")), st')).
Proof.
  pose (l := [ex_movie 11 "FOO"; ex_movie 12 "Bar"]).
  pose (st' := {| self := set_items (ex_collection false) (Some l);
                  trace := [Request GET "/library/collections/7/children"] |}).
  assert (E : items ex_server ex_base (ex_state false) = (Ok l, st')) by reflexivity.
  destruct (item_by_title ex_server ex_base (ex_state false) st' l "foo" E) as [Hfound _].
  destruct (item_by_title ex_server ex_base (ex_state false) st' l "Missing" E) as [_ Hnone].
  split.
  - destruct Hfound as (i & Hi & Ht & Hitem & _).
    { exists (ex_movie 11 "FOO"). split; [apply list_elem_of_here | reflexivity]. }
    exists st', l, i. split; [exact E|]. split; [exact Hi|]. split; [|exact Hitem].
    apply elem_of_cons in Hi as [->|Hi]; [reflexivity|].
    apply elem_of_cons in Hi as [->|Hi]; [discriminate Ht|].
    destruct (not_elem_of_nil _ Hi).
  - exists st'. apply Hnone. intros i Hi.
    apply elem_of_cons in Hi as [->|Hi]; [discriminate|].
    apply elem_of_cons in Hi as [->|Hi]; [discriminate|].
    destruct (not_elem_of_nil _ Hi).
Defined.

(** Three calls, one request *)
Lemma items_memoized_witness :
  _items (self (ex_state false)) = None /\
  exists l st',
    call_items ex_server ex_base 3 (ex_state false) = (Ok [l; l; l], st') /\
    trace st' = [Request GET "/library/collections/7/children"].
Proof.
  split; [reflexivity|].
  destruct (items_memoized ex_server ex_base (ex_state false) ex_answer eq_refl eq_refl)
    as (_ & _ & H).
  eexists. eexists. split; [exact (H 2%nat) | reflexivity].
Defined.

(** The empty list on the sample collection *)
Lemma empty_list_edge_witness :
  smart (self (ex_state false)) = false /\
  addItems ex_utils ex_server (ItemSeq []) (ex_state false) =
    (Ok tt,
     {| self := ex_collection false;
        trace := [Request PUT
                    "/library/collections/7/items?uri=server://abc/com.plexapp.plugins.library/library/metadata/"] |}) /\
  removeItems ex_server (ItemSeq []) (ex_state false) = (Ok tt, ex_state false).
Proof.
  split; [reflexivity|].
  destruct (empty_list_edge ex_utils ex_server (ex_state false) eq_refl) as [Ha Hr].
  split; [exact Ha | exact Hr].
Defined.

(** * Further properties *)

(** ** Caches *)

Section Caches.

Variable server : Server.
Variable base : Base.

(** X1: [section] is memoized.  With nothing stored, it asks the base class
    once and stores the answer, and a further call returns the stored
    section with the state as it is; when the base class raises, the
    exception is passed on and nothing is stored by [section]. *)
Theorem section_memoized (st st1 : State) :
  _section (self st) = None ->
  (forall s, super_section base st = (Ok s, st1) ->
     let st' := {| self := set_section (self st1) (Some s); trace := trace st1 |} in
     section base st = (Ok s, st') /\ section base st' = (Ok s, st')) /\
  (forall e, super_section base st = (Raise e, st1) -> section base st = (Raise e, st1)).
Proof.
  intros H. split.
  - intros s E st'. split.
    + unfold section. run. rewrite H. run. rewrite E. reflexivity.
    + unfold section. run. reflexivity.
  - intros e E. unfold section. run. rewrite H. run. rewrite E. reflexivity.
Qed.

(** X2: a listing that fails is not stored.  When the transport refuses the
    request for the children, [items] raises what the transport raised and
    [_items] stays empty, so the next call asks again; if that one is
    answered, it returns the list, after two requests in all. *)
Theorem items_fault_not_stored (st : State) (e : exn) :
  _items (self st) = None ->
  respond server (trace st) (children_request (self st)) = Fault e ->
  let st1 := {| self := self st; trace := trace st ++ [children_request (self st)] |} in
  items server base st = (Raise e, st1) /\
  _items (self st1) = None /\
  forall data,
    respond server (trace st1) (children_request (self st)) = Reply data ->
    items server base st1 =
      (Ok (map (buildItem base) (children data)),
       {| self := set_items (self st) (Some (map (buildItem base) (children data)));
          trace := trace st ++ [children_request (self st); children_request (self st)] |}).
Proof.
  intros H Hf st1. split; [|split; [exact H|]].
  - unfold items. run. rewrite H. unfold fetchItems. run. unfold query.
    fold (children_request (self st)). rewrite Hf. reflexivity.
  - intros data Hr.
    rewrite (items_first server base st1 data H Hr). simpl.
    rewrite <- app_assoc. reflexivity.
Qed.

End Caches.

(** ** Reading the members *)

Lemma list_index_nonneg {A} (l : list A) (k : Z) (x : A) :
  0 <= k -> l !! Z.to_nat k = Some x -> list_index l k = Ok x.
Proof.
  intros Hk Hx. unfold list_index.
  assert (Hlt : (Z.to_nat k < length l)%nat) by (apply lookup_lt_is_Some; eauto).
  destruct (k <? 0) eqn:E; [apply Z.ltb_lt in E; lia|].
  replace (0 <=? k) with true by (symmetry; apply Z.leb_le; lia).
  replace (k <? Z.of_nat (length l)) with true by (symmetry; apply Z.ltb_lt; lia).
  simpl. rewrite Hx. reflexivity.
Qed.

Lemma list_index_negative {A} (l : list A) (k : Z) (x : A) :
  k < 0 -> 0 <= k + Z.of_nat (length l) ->
  l !! Z.to_nat (k + Z.of_nat (length l)) = Some x -> list_index l k = Ok x.
Proof.
  intros Hk Hn Hx. unfold list_index.
  replace (k <? 0) with true by (symmetry; apply Z.ltb_lt; lia).
  replace (0 <=? k + Z.of_nat (length l)) with true by (symmetry; apply Z.leb_le; lia).
  replace (k + Z.of_nat (length l) <? Z.of_nat (length l)) with true
    by (symmetry; apply Z.ltb_lt; lia).
  simpl. rewrite Hx. reflexivity.
Qed.

Lemma list_index_out_of_range {A} (l : list A) (k : Z) :
  Z.of_nat (length l) <= k \/ k < - Z.of_nat (length l) ->
  list_index l k = Raise (IndexError "list index out of range").
Proof.
  intros H. unfold list_index. destruct (k <? 0) eqn:E.
  - apply Z.ltb_lt in E.
    destruct (0 <=? k + Z.of_nat (length l)) eqn:E1; [|reflexivity].
    apply Z.leb_le in E1. lia.
  - apply Z.ltb_ge in E.
    replace (k <? Z.of_nat (length l)) with false by (symmetry; apply Z.ltb_ge; lia).
    rewrite andb_false_r. reflexivity.
Qed.

Section Reading.

Variable server : Server.
Variable base : Base.
Variable playlib : PlayLib.

(** X3: [item] returns the first member, in the order of the listing,
    whose title is the one asked for up to case: with the members
    [before ++ i :: after], no title of [before] matching and that of [i]
    matching, the result is [i]. *)
Theorem item_first_match (st st' : State) (before after : list Item.t) (i : Item.t) (t : string) :
  items server base st = (Ok (before ++ i :: after), st') ->
  (forall j, j ∈ before -> PyStr.lower (Item.title j) <> PyStr.lower t) ->
  PyStr.lower (Item.title i) = PyStr.lower t ->
  item server base t st = (Ok i, st').
Proof.
  intros E Hb Hi. unfold item. cbv [mbind SE_bind]. rewrite E. cbv beta iota.
  replace (List.find _ (before ++ i :: after)) with (Some i); [reflexivity|].
  symmetry. clear E. induction before as [|b before IH]; simpl.
  - apply String.eqb_eq in Hi. rewrite Hi. reflexivity.
  - assert (Hne : PyStr.lower (Item.title b) <> PyStr.lower t)
      by (apply Hb, list_elem_of_here).
    apply String.eqb_neq in Hne. rewrite Hne.
    apply IH. intros j Hj. apply Hb, list_elem_of_further, Hj.
Qed.

(** X4: [__len__] and [__getitem__] read the listing.  With the members
    [l], [__len__] is their number; an index from 0 up to the number gives
    the member at that place, a negative index down to minus the number
    counts from the end, and any other index raises [IndexError]. *)
Theorem len_and_getitem (st st' : State) (l : list Item.t) :
  items server base st = (Ok l, st') ->
  __len__ server base st = (Ok (Z.of_nat (length l)), st') /\
  (forall k x, 0 <= k -> l !! Z.to_nat k = Some x ->
     __getitem__ server base k st = (Ok x, st')) /\
  (forall k x, k < 0 -> 0 <= k + Z.of_nat (length l) ->
     l !! Z.to_nat (k + Z.of_nat (length l)) = Some x ->
     __getitem__ server base k st = (Ok x, st')) /\
  (forall k, Z.of_nat (length l) <= k \/ k < - Z.of_nat (length l) ->
     __getitem__ server base k st = (Raise (IndexError "list index out of range"), st')).
Proof.
  intros E. unfold __len__, __getitem__. cbv [mbind SE_bind]. rewrite E. cbv beta iota.
  split; [reflexivity|]. split; [|split].
  - intros k x Hk Hx. unfold lift_result. rewrite (list_index_nonneg l k x Hk Hx). reflexivity.
  - intros k x Hk Hn Hx. unfold lift_result.
    rewrite (list_index_negative l k x Hk Hn Hx). reflexivity.
  - intros k Hk. unfold lift_result. rewrite (list_index_out_of_range l k Hk). reflexivity.
Qed.

(** X5: what reads the members passes a failure of the listing on.  When
    [items] raises, [item], [get], [__len__], [__getitem__] and
    [playQueue] raise the same exception from the same state; the play
    queue is not asked for. *)
Theorem readers_pass_failure_on (st st' : State) (e : exn) :
  items server base st = (Raise e, st') ->
  (forall t, item server base t st = (Raise e, st') /\ get server base t st = (Raise e, st')) /\
  __len__ server base st = (Raise e, st') /\
  (forall k, __getitem__ server base k st = (Raise e, st')) /\
  (forall opts, playQueue server base playlib opts st = (Raise e, st')).
Proof.
  intros E. unfold get, item, __len__, __getitem__, playQueue.
  cbv [mbind SE_bind]. rewrite E. repeat split.
Qed.

End Reading.

(** ** Changing the members *)

Section Changing.

Variable utils : Utils.
Variable server : Server.
Variable base : Base.

(** X6: on a regular collection, [addItems] on items that all have the
    collection's subtype issues one PUT at [<key>/items] whose URI lists
    their rating keys in the order given, and its outcome is the
    transport's; one item alone is treated as the list of that item. *)
Theorem addItems_one_put (st : State) (l : list Item.t) :
  smart (self st) = false ->
  (forall i, i ∈ l -> Some (Item.type i) = subtype (self st)) ->
  let r := Request PUT
             (key (self st) +:+ "/items" +:+
              joinArgs utils
                [("uri", PStr (_uriRoot server +:+ "/library/metadata/" +:+
                               PyStr.join "," (map (fun i => PyStr.of_int (Item.ratingKey i)) l)))]) in
  addItems utils server (ItemSeq l) st =
    (match respond server (trace st) r with
     | Reply _ => Ok tt
     | Fault e => Raise e
     end,
     {| self := self st; trace := trace st ++ [r] |}) /\
  (forall i, l = [i] -> addItems utils server (OneItem i) st = addItems utils server (ItemSeq l) st).
Proof.
  intros Hs H r. split.
  - rewrite (addItems_uniform utils server st l Hs H). unfold add_request.
    rewrite map_map. reflexivity.
  - intros i ->. reflexivity.
Qed.

(** X7: whatever it is given and whatever the transport does, [addItems]
    leaves the object as it is and issues at most one request, a PUT; when
    it raises [BadRequest] for the smart flag or for a type, or [TypeError],
    it is before that request. *)
Theorem addItems_at_most_one_put (st : State) (its : items_arg) :
  self (snd (addItems utils server its st)) = self st /\
  (trace (snd (addItems utils server its st)) = trace st \/
   exists path, trace (snd (addItems utils server its st)) = trace st ++ [Request PUT path]).
Proof.
  unfold addItems. run. destruct (smart (self st)); [split; [reflexivity | left; reflexivity]|].
  destruct its as [|i|l]; simpl; [split; [reflexivity | left; reflexivity]| |].
  - destruct (bool_decide _); simpl; [split; [reflexivity | left; reflexivity]|].
    unfold query.
    match goal with |- context [respond server ?t ?q] => destruct (respond server t q) end;
      (split; [reflexivity | right; eexists; reflexivity]).
  - destruct (addItems_loop (self st) l []); simpl; [|split; [reflexivity | left; reflexivity]].
    unfold query.
    match goal with |- context [respond server ?t ?q] => destruct (respond server t q) end;
      (split; [reflexivity | right; eexists; reflexivity]).
Qed.

(** X8: [None] for the items.  On a regular collection [addItems] and
    [removeItems] raise [TypeError] with the state as it was, where
    [_create] raises [BadRequest]. *)
Theorem items_none (st : State) (title : string) (sec : section_arg) (t : list request) :
  smart (self st) = false ->
  addItems utils server ItemsNone st =
    (Raise (TypeError "'NoneType' object is not iterable"), st) /\
  removeItems server ItemsNone st =
    (Raise (TypeError "'NoneType' object is not iterable"), st) /\
  _create utils server base title sec ItemsNone t =
    (Raise (BadRequest "Must include items to add when creating new collection."), t).
Proof.
  intros Hs. unfold addItems, removeItems. run. rewrite Hs. repeat split.
Qed.

(** X9: [removeItems] stops at the first request the transport refuses.
    With the items [before ++ i :: after], the requests for [before]
    answered and the one for [i] refused, it raises what the transport
    raised, after the DELETE requests for [before] and [i]; nothing is
    asked for [after]. *)
Theorem removeItems_stops_at_fault (st : State) (before after : list Item.t) (i : Item.t) (e : exn) :
  smart (self st) = false ->
  acknowledged server (trace st) (map (delete_request (self st)) before) ->
  respond server (trace st ++ map (delete_request (self st)) before)
          (delete_request (self st) i) = Fault e ->
  removeItems server (ItemSeq (before ++ i :: after)) st =
    (Raise e,
     {| self := self st;
        trace := trace st ++ map (delete_request (self st)) before
                          ++ [delete_request (self st) i] |}).
Proof.
  intros Hs Hack Hf. unfold removeItems. run. rewrite Hs.
  assert (E : removeItems_loop server (self st) (before ++ i :: after) (trace st) =
              (Raise e, trace st ++ map (delete_request (self st)) before
                                 ++ [delete_request (self st) i])).
  { generalize dependent (trace st). induction before as [|b before IH]; intros t Hack Hf.
    - simpl in *. rewrite app_nil_r in Hf. cbv [mbind SE_bind]. unfold query.
      fold (delete_request (self st) i). rewrite Hf. reflexivity.
    - simpl in Hack. destruct Hack as [[data Hd] Hack].
      cbn [app removeItems_loop]. cbv [mbind SE_bind]. unfold query at 1.
      fold (delete_request (self st) b). rewrite Hd.
      rewrite (IH (t ++ [delete_request (self st) b]) Hack).
      + rewrite <- app_assoc. reflexivity.
      + rewrite <- app_assoc. exact Hf. }
  rewrite E. reflexivity.
Qed.

(** X10: on a smart collection, once the section is there and has built
    the search key, [updateFilters] issues one PUT at [<key>/items] whose
    URI is the server's root followed by the search key, and its outcome is
    the transport's; when the section cannot build the key, no PUT is
    issued. *)
Theorem updateFilters_one_put (st st1 : State) (s : LibrarySection) (args : SearchArgs) :
  smart (self st) = true ->
  section base st = (Ok s, st1) ->
  (forall searchKey t2,
     _buildSearchKey server s args (trace st1) = (Ok searchKey, t2) ->
     let r := Request PUT
                (key (self st1) +:+ "/items" +:+
                 joinArgs utils [("uri", PStr (_uriRoot server +:+ searchKey))]) in
     updateFilters utils server base args st =
       (match respond server t2 r with
        | Reply _ => Ok tt
        | Fault e => Raise e
        end,
        {| self := self st1; trace := t2 ++ [r] |})) /\
  (forall e t2,
     _buildSearchKey server s args (trace st1) = (Raise e, t2) ->
     updateFilters utils server base args st = (Raise e, {| self := self st1; trace := t2 |})).
Proof.
  intros Hs E. split.
  - intros sk t2 Hk r. unfold updateFilters. cbv [mbind SE_bind get_self]. rewrite Hs.
    cbn [negb]. cbv beta iota. rewrite E. cbv beta iota. unfold liftIO at 1.
    rewrite Hk. cbv beta iota. unfold liftIO, query. simpl. fold r.
    destruct (respond server t2 r); reflexivity.
  - intros e t2 Hk. unfold updateFilters. cbv [mbind SE_bind get_self]. rewrite Hs.
    cbn [negb]. cbv beta iota. rewrite E. cbv beta iota. unfold liftIO at 1.
    rewrite Hk. reflexivity.
Qed.

End Changing.

(** ** Creating and parsing *)

Section Creating.

Variable utils : Utils.
Variable server : Server.
Variable base : Base.

Lemma _create_loop_mismatch (ty : string) (l : list Item.t) (acc : list string) :
  (exists i, i ∈ l /\ Item.type i <> ty) ->
  _create_loop ty l acc =
    Raise (BadRequest "Can not mix media types when building a collection.").
Proof.
  revert acc. induction l as [|x l IH]; intros acc [i [Hin Hne]].
  - destruct (not_elem_of_nil _ Hin).
  - simpl. destruct (decide (Item.type x ≠ ty)) as [Hx|Hx].
    + rewrite bool_decide_eq_true_2 by exact Hx. reflexivity.
    + rewrite bool_decide_eq_false_2 by exact Hx.
      apply elem_of_cons in Hin as [->|Hin]; [contradiction|].
      apply IH. exists i. split; assumption.
Qed.

(** X11: [_create] on items of more than one type.  Once the section is
    resolved, a list with an item whose type is not that of the first item
    makes [_create] raise [BadRequest]; no POST is issued, and with a
    section object for the section the trace is as it was. *)
Theorem create_rejects_mixed_types (title : string) (sec : section_arg) (t t1 : list request)
    (s : LibrarySection) (first : Item.t) (rest : list Item.t) :
  resolve_section server sec t = (Ok s, t1) ->
  (exists i, i ∈ rest /\ Item.type i <> Item.type first) ->
  _create utils server base title sec (ItemSeq (first :: rest)) t =
    (Raise (BadRequest "Can not mix media types when building a collection."), t1) /\
  (forall s', sec = SectionObj s' -> t1 = t).
Proof.
  intros Hs (i & Hi & Hne). split.
  - unfold _create. cbn [falsy normalize iterate]. cbv [mbind SE_bind lift_result].
    rewrite Hs. rewrite (_create_loop_mismatch (Item.type first) (first :: rest) []).
    + reflexivity.
    + exists i. split; [apply list_elem_of_further, Hi | exact Hne].
  - intros s' ->. simpl in Hs. injection Hs as _ <-. reflexivity.
Qed.

(** X12: what follows the POST of a creation.  [post_and_build] issues
    that one request whatever the answer; when the transport refuses it
    the exception is passed on, when the answer has no child element it
    raises [IndexError], and otherwise the collection is parsed from the
    first child. *)
Theorem post_and_build_outcome (k : string) (t : list request) :
  snd (post_and_build utils server base k t) = t ++ [Request POST k] /\
  (forall e, respond server t (Request POST k) = Fault e ->
     fst (post_and_build utils server base k t) = Raise e) /\
  (forall a, respond server t (Request POST k) = Reply (Elem a []) ->
     fst (post_and_build utils server base k t) = Raise (IndexError "child index out of range")) /\
  (forall a d ds, respond server t (Request POST k) = Reply (Elem a (d :: ds)) ->
     fst (post_and_build utils server base k t) = _loadData utils base d).
Proof.
  split; [apply post_and_build_trace|].
  unfold post_and_build. cbv [mbind SE_bind]. unfold query.
  repeat split; intros; match goal with H : respond _ _ _ = _ |- _ => rewrite H end; reflexivity.
Qed.

Lemma _loadData_fresh (data : Element) (c : Collection) :
  _loadData utils base data = Ok c -> _items c = None /\ _section c = None.
Proof.
  unfold _loadData. cbv [mbind result_bind mret result_ret].
  repeat match goal with
    | |- context [match ?r with Ok _ => _ | Raise _ => _ end] => destruct r
    end; intros H; try discriminate.
  injection H as <-. split; reflexivity.
Qed.

Lemma post_and_build_parsed (k : string) (t t' : list request) (c : Collection) :
  post_and_build utils server base k t = (Ok c, t') ->
  exists d, _loadData utils base d = Ok c.
Proof.
  unfold post_and_build. cbv [mbind SE_bind]. unfold query.
  destruct (respond server t (Request POST k)) as [[a ch]|e]; [|discriminate].
  destruct ch as [|d ds]; simpl; [discriminate|].
  unfold lift_result. intros H. injection H as H _. eauto.
Qed.

Lemma create_parsed (title : string) (sec : section_arg) (its : items_arg) (smart_flag : bool)
    (args : SearchArgs) (t t' : list request) (c : Collection) :
  create utils server base title sec its smart_flag args t = (Ok c, t') ->
  exists d, _loadData utils base d = Ok c.
Proof.
  unfold create, _createSmart, _create. destruct smart_flag.
  - cbv [mbind SE_bind lift_result].
    destruct (resolve_section server sec t) as [[s|e] t1]; [|discriminate].
    destruct (_buildSearchKey server s _ t1) as [[sk|e] t2]; [|discriminate].
    destruct (searchType utils _) as [code|e]; [|discriminate].
    apply post_and_build_parsed.
  - destruct (falsy its); [discriminate|].
    cbv [mbind SE_bind lift_result].
    destruct (resolve_section server sec t) as [[s|e] t1]; [|discriminate].
    destruct (iterate (normalize its)) as [l|e]; [|discriminate].
    destruct l as [|first rest]; [discriminate|].
    destruct (_create_loop _ _ _) as [ks|e]; [|discriminate].
    destruct (searchType utils _) as [code|e]; [|discriminate].
    apply post_and_build_parsed.
Qed.

(** X13: a collection that [create] returns, regular or smart, has no
    members and no section stored; so, when the transport answers, the
    first [items] on it issues the GET at its key followed by
    [/children]. *)
Theorem created_collection_is_fresh (title : string) (sec : section_arg) (its : items_arg)
    (smart_flag : bool) (args : SearchArgs) (t t' : list request) (c : Collection) :
  create utils server base title sec its smart_flag args t = (Ok c, t') ->
  _items c = None /\ _section c = None /\
  forall data,
    respond server t' (Request GET (key c +:+ "/children")) = Reply data ->
    items server base {| self := c; trace := t' |} =
      (Ok (map (buildItem base) (children data)),
       {| self := set_items c (Some (map (buildItem base) (children data)));
          trace := t' ++ [Request GET (key c +:+ "/children")] |}).
Proof.
  intros H. destruct (create_parsed _ _ _ _ _ _ _ _ H) as [d Hd].
  destruct (_loadData_fresh d c Hd) as [Hi Hsec].
  split; [exact Hi|]. split; [exact Hsec|].
  intros data Hr. apply (items_first server base {| self := c; trace := t' |} data Hi Hr).
Qed.


(** X15: [_createSmart].  Once the section is resolved, has built the
    search key for the arguments with the type filled in, and the type has
    its code, it issues the POST at [/library/collections] with [smart]
    set to 1 and the URI made of the server's root and the search key.
    The type is the one given, or the section's own when none or an empty
    one is given. *)
Theorem createSmart_request (title : string) (sec : section_arg) (args : SearchArgs)
    (t t1 t2 : list request) (s : LibrarySection) (searchKey : string) (code : Z) :
  let ty := match libtype args with
            | None => section_TYPE s
            | Some l => if String.eqb l "" then section_TYPE s else l
            end in
  resolve_section server sec t = (Ok s, t1) ->
  _buildSearchKey server s
    {| libtype := Some ty; limit := limit args; sort := sort args;
       filters := filters args; kwargs := kwargs args |} t1 = (Ok searchKey, t2) ->
  searchType utils ty = Ok code ->
  _createSmart utils server base title sec args t =
    post_and_build utils server base
      ("/library/collections" +:+
       joinArgs utils
         [("uri", PStr (_uriRoot server +:+ searchKey)); ("type", PInt code);
          ("title", PStr title); ("smart", PInt 1); ("sectionId", section_key s)]) t2.
Proof.
  intros ty Hs Hk Hc. unfold _createSmart. cbv [mbind SE_bind lift_result]. rewrite Hs.
  assert (Hty : libtype_or (libtype args) (section_TYPE s) = ty).
  { subst ty. unfold libtype_or. destruct (libtype args) as [[|a l]|]; reflexivity. }
  rewrite Hty, Hk, Hc. reflexivity.
Qed.

End Creating.

(** ** Editing *)

Lemma dict_get_set {V} (d : list (string * V)) (k k' : string) (v : V) :
  dict_get (dict_set d k v) (Some k') =
  if String.eqb k k' then Some v else dict_get d (Some k').
Proof.
  unfold dict_get. induction d as [|[a b] d IH]; simpl.
  - destruct (String.eqb_spec k k'); reflexivity.
  - destruct (String.eqb_spec a k) as [->|Hak]; simpl.
    + destruct (String.eqb_spec k k'); reflexivity.
    + destruct (String.eqb_spec a k') as [->|Hak'].
      * destruct (String.eqb_spec k k'); [congruence | reflexivity].
      * exact IH.
Qed.

(** After [d.update(e)], a key of [e] has its value in [e] and any other
    key its value in [d]; the keys of a dict are distinct. *)
Lemma dict_get_update {V} (d e : list (string * V)) (k : string) :
  NoDup (dict_keys e) ->
  dict_get (dict_update d e) (Some k) =
  match dict_get e (Some k) with
  | Some v => Some v
  | None => dict_get d (Some k)
  end.
Proof.
  unfold dict_update. revert d. induction e as [|[a b] e IH]; intros d Hnd; [reflexivity|].
  simpl in Hnd. apply NoDup_cons in Hnd as [Ha Hnd].
  cbn [fold_left fst snd]. rewrite (IH _ Hnd), dict_get_set.
  unfold dict_get at 2 3. cbn [List.find fst].
  destruct (String.eqb_spec a k) as [->|Hak]; [|reflexivity].
  rewrite (dict_get_absent e k Ha). reflexivity.
Qed.

Section Editing.

Variable partial : PartialObject.

(** X16: [edit] hands the base class a dict in which every key of the
    extra arguments has the value given there, and any other key is there
    only for a named argument that is not [None]: [<name>.value] with the
    argument and [<name>.locked] with 1.  So an argument left out leaves
    its field alone, an empty string is a value like any other, and an
    extra argument overrides a named one. *)
Theorem edit_arguments (title titleSort contentRating summary : option string)
    (kwargs : list (string * pyval)) :
  NoDup (dict_keys kwargs) ->
  exists args,
    edit partial title titleSort contentRating summary kwargs = super_edit partial args /\
    forall k,
      dict_get args (Some k) =
      match dict_get kwargs (Some k) with
      | Some v => Some v
      | None => edit_named title titleSort contentRating summary k
      end.
Proof.
  intros Hnd. eexists. split; [reflexivity|].
  intros k. rewrite (dict_get_update _ kwargs k Hnd).
  destruct (dict_get kwargs (Some k)); [reflexivity|].
  unfold edit_named.
  destruct title, titleSort, contentRating, summary; cbv zeta; rewrite ?dict_get_set;
    repeat match goal with
      | |- context [String.eqb ?a k] => rewrite (String.eqb_sym a k)
      end;
    repeat match goal with
      | |- context [String.eqb k ?a] =>
          destruct (String.eqb_spec k a) as [->|?]; [reflexivity|]
      end; reflexivity.
Qed.

End Editing.

(** ** Sync *)

Lemma app_assoc_string (a b c : string) : (a +:+ b) +:+ c = a +:+ (b +:+ c).
Proof. induction a as [|x a IH]; [reflexivity|]. rewrite !app_cons, IH. reflexivity. Qed.

(** [quote_plus] works character by character. *)
Lemma quote_plus_app (a b : string) :
  PyUrl.quote_plus (a +:+ b) = PyUrl.quote_plus a +:+ PyUrl.quote_plus b.
Proof.
  induction a as [|x a IH]; [reflexivity|].
  rewrite app_cons. cbn [PyUrl.quote_plus]. rewrite IH, app_assoc_string. reflexivity.
Qed.

Lemma listType_unsupported (c : Collection) :
  subtype c ∉ map Some (video_kinds ++ audio_kinds ++ photo_kinds) ->
  listType c = Raise (Unsupported "Unexpected collection type").
Proof.
  rewrite !map_app, !elem_of_app. intros H. unfold listType.
  destruct (isVideo c) eqn:V; [apply isVideo_spec in V; tauto|].
  destruct (isAudio c) eqn:A; [apply isAudio_spec in A; tauto|].
  destruct (isPhoto c) eqn:P; [apply isPhoto_spec in P; tauto|].
  reflexivity.
Qed.

Section Syncing.

Variable base : Base.
Variable synclib : SyncLib.
Variable myplex_sync :
  MyPlexAccount synclib -> SyncItem synclib -> option (MyPlexDevice synclib) ->
  option string -> IO (Synced synclib).

(** X17: [sync] on a section that does not allow it.  Once the section is
    there, [sync] raises [BadRequest] from the state the section lookup
    left: the account is not asked for and nothing is submitted. *)
Theorem sync_not_allowed (st st1 : State) (s : LibrarySection)
    (videoQuality : option Z) (photoResolution : option string) (audioBitrate : option Z)
    (client : option (MyPlexDevice synclib)) (clientId : option string) (limit : option Z)
    (unwatched : bool) (title : option string) :
  section base st = (Ok s, st1) ->
  allowSync synclib s = false ->
  sync base synclib myplex_sync videoQuality photoResolution audioBitrate client clientId
       limit unwatched title st =
    (Raise (BadRequest "The collection is not allowed to sync"), st1).
Proof.
  intros E Ha. unfold sync. cbv [mbind SE_bind]. rewrite E. cbv beta iota.
  rewrite Ha. reflexivity.
Qed.

(** X18: [sync] on a collection whose subtype is no media kind.  Once the
    section allows the sync and the account is there, [sync] raises
    [Unsupported] with the message of [listType], before a policy or media
    settings are made and with nothing submitted. *)
Theorem sync_unsupported_kind (st st1 : State) (s : LibrarySection)
    (a : MyPlexAccount synclib) (t2 : list request)
    (videoQuality : option Z) (photoResolution : option string) (audioBitrate : option Z)
    (client : option (MyPlexDevice synclib)) (clientId : option string) (limit : option Z)
    (unwatched : bool) (title : option string) :
  section base st = (Ok s, st1) ->
  allowSync synclib s = true ->
  myPlexAccount synclib (trace st1) = (Ok a, t2) ->
  subtype (self st1) ∉ map Some (video_kinds ++ audio_kinds ++ photo_kinds) ->
  sync base synclib myplex_sync videoQuality photoResolution audioBitrate client clientId
       limit unwatched title st =
    (Raise (Unsupported "Unexpected collection type"), {| self := self st1; trace := t2 |}).
Proof.
  intros E Ha Hacc Hk. unfold sync. cbv [mbind SE_bind]. rewrite E. cbv beta iota.
  rewrite Ha. cbn [negb]. cbv beta iota. unfold liftIO at 1. rewrite Hacc. cbv beta iota.
  cbv [get_self lift_result]. cbn [self].
  rewrite (listType_unsupported (self st1) Hk). reflexivity.
Qed.

(** X19: what [sync] submits.  Once the section allows the sync, the
    account is there, and the policy and the media settings of the
    collection's kind are made, [sync] submits to the account one sync item:
    its title is the one given, or the collection's when none or an empty
    one is given; its content type is the kind; its location is
    [library:///directory/] followed by the quoted key and the quoted
    [/children?excludeAllLeaves=1]. *)
Theorem sync_submits (st st1 : State) (s : LibrarySection)
    (a : MyPlexAccount synclib) (t2 : list request) (kind : string)
    (p : Policy synclib) (ms : MediaSettings synclib)
    (videoQuality : option Z) (photoResolution : option string) (audioBitrate : option Z)
    (client : option (MyPlexDevice synclib)) (clientId : option string) (limit : option Z)
    (unwatched : bool) (title' : option string) :
  section base st = (Ok s, st1) ->
  allowSync synclib s = true ->
  myPlexAccount synclib (trace st1) = (Ok a, t2) ->
  listType (self st1) = Ok kind ->
  Policy_create synclib limit unwatched = Ok p ->
  (kind = "video" /\ createVideo synclib videoQuality = Ok ms \/
   kind = "audio" /\ createMusic synclib audioBitrate = Ok ms \/
   kind = "photo" /\ createPhoto synclib photoResolution = Ok ms) ->
  let sync_item :=
    {| si_title := match title' with
                   | None => title (self st1)
                   | Some x => if String.eqb x "" then title (self st1) else Some x
                   end;
       si_rootTitle := title (self st1);
       si_contentType := kind;
       si_metadataType := subtype (self st1);
       si_machineIdentifier := machineIdentifier synclib;
       si_location := "library:///directory/" +:+ PyUrl.quote_plus (key (self st1))
                      +:+ "%2Fchildren%3FexcludeAllLeaves%3D1";
       si_policy := p;
       si_mediaSettings := ms |} in
  sync base synclib myplex_sync videoQuality photoResolution audioBitrate client clientId
       limit unwatched title' st =
    (fst (myplex_sync a sync_item client clientId t2),
     {| self := self st1; trace := snd (myplex_sync a sync_item client clientId t2) |}).
Proof.
  intros E Ha Hacc Hl Hp Hms sync_item.
  unfold sync. cbv [mbind SE_bind]. rewrite E. cbv beta iota.
  rewrite Ha. cbn [negb]. cbv beta iota. unfold liftIO at 1. rewrite Hacc. cbv beta iota.
  cbv [get_self lift_result]. cbn [self]. rewrite Hl, Hp.
  assert (Hsel : isVideo (self st1) = true /\ createVideo synclib videoQuality = Ok ms \/
                 isVideo (self st1) = false /\ isAudio (self st1) = true /\
                   createMusic synclib audioBitrate = Ok ms \/
                 isVideo (self st1) = false /\ isAudio (self st1) = false /\
                   isPhoto (self st1) = true /\ createPhoto synclib photoResolution = Ok ms).
  { unfold listType in Hl.
    destruct (isVideo (self st1)); [|destruct (isAudio (self st1)); [|destruct (isPhoto (self st1))]];
      injection Hl as <- || discriminate Hl;
      destruct Hms as [[Hk Hc]|[[Hk Hc]|[Hk Hc]]]; try discriminate Hk; tauto. }
  assert (Hitem :
    {| si_title := title_or title' (title (self st1));
       si_rootTitle := title (self st1);
       si_contentType := kind;
       si_metadataType := metadataType (self st1);
       si_machineIdentifier := machineIdentifier synclib;
       si_location := "library:///directory/" +:+
                      PyUrl.quote_plus (key (self st1) +:+ "/children?excludeAllLeaves=1");
       si_policy := p;
       si_mediaSettings := ms |} = sync_item).
  { subst sync_item. f_equal.
    - unfold title_or. destruct title' as [[|c x]|]; reflexivity.
    - rewrite quote_plus_app. reflexivity. }
  destruct Hsel as [[V Hc]|[(V & A & Hc)|(V & A & P & Hc)]];
    rewrite ?V, ?A, ?P, Hc; cbv beta iota; rewrite Hitem; unfold liftIO; cbn [self trace];
    destruct (myplex_sync a sync_item client clientId t2); reflexivity.
Qed.

End Syncing.

(** ** The further properties on the sample environment *)

(** A first lookup of the section, and the second *)
Lemma section_memoized_witness :
  _section (self (ex_state false)) = None /\
  exists st', section ex_base (ex_state false) = (Ok ex_section, st') /\
              section ex_base st' = (Ok ex_section, st').
Proof.
  split; [reflexivity|].
  destruct (section_memoized ex_base (ex_state false) (ex_state false) eq_refl) as [H _].
  destruct (H ex_section eq_refl) as [H1 H2].
  eexists. split; [exact H1 | exact H2].
Defined.

(** A listing refused, then answered *)
Lemma items_fault_not_stored_witness :
  _items (self (ex_state false)) = None /\
  exists st1 l st2,
    items (ex_server_after 1 false) ex_base (ex_state false) =
      (Raise (ServerError "connection refused"), st1) /\
    items (ex_server_after 1 false) ex_base st1 = (Ok l, st2) /\
    length (trace st2) = 2%nat.
Proof.
  split; [reflexivity|].
  destruct (items_fault_not_stored (ex_server_after 1 false) ex_base (ex_state false)
              (ServerError "connection refused") eq_refl eq_refl) as (H1 & _ & H3).
  eexists. eexists. eexists. split; [exact H1|]. split; [exact (H3 ex_answer eq_refl)|].
  reflexivity.
Defined.

(** Two members that match: the earlier one is returned. *)
Lemma item_first_match_witness :
  item ex_server ex_base "Foo" ex_listed_state = (Ok (ex_movie 2 "foo"), ex_listed_state).
Proof.
  apply (item_first_match ex_server ex_base ex_listed_state ex_listed_state
           [ex_movie 1 "Bar"] [ex_movie 3 "FOO"] (ex_movie 2 "foo") "Foo").
  - reflexivity.
  - intros j Hj. apply elem_of_cons in Hj as [->|Hj]; [discriminate|].
    destruct (not_elem_of_nil _ Hj).
  - reflexivity.
Defined.

(** The number of the three members, the first, the last and one too far *)
Lemma len_and_getitem_witness :
  __len__ ex_server ex_base ex_listed_state = (Ok 3, ex_listed_state) /\
  __getitem__ ex_server ex_base 0 ex_listed_state = (Ok (ex_movie 1 "Bar"), ex_listed_state) /\
  __getitem__ ex_server ex_base (-1) ex_listed_state = (Ok (ex_movie 3 "FOO"), ex_listed_state) /\
  __getitem__ ex_server ex_base 3 ex_listed_state =
    (Raise (IndexError "list index out of range"), ex_listed_state).
Proof.
  destruct (len_and_getitem ex_server ex_base ex_listed_state ex_listed_state
              [ex_movie 1 "Bar"; ex_movie 2 "foo"; ex_movie 3 "FOO"] eq_refl)
    as (H1 & H2 & H3 & H4).
  split; [exact H1|]. split; [apply H2; [lia | reflexivity]|].
  split; [apply H3; [lia | simpl; lia | reflexivity]|].
  apply H4. left. simpl. lia.
Defined.

(** The readers on a server that is down *)
Lemma readers_pass_failure_on_witness :
  exists st',
    items ex_down_server ex_base (ex_state false) = (Raise (ServerError "connection refused"), st') /\
    item ex_down_server ex_base "foo" (ex_state false) =
      (Raise (ServerError "connection refused"), st') /\
    playQueue ex_down_server ex_base ex_playlib tt (ex_state false) =
      (Raise (ServerError "connection refused"), st').
Proof.
  eexists. split; [vm_compute; reflexivity|].
  destruct (readers_pass_failure_on ex_down_server ex_base ex_playlib (ex_state false) _
              (ServerError "connection refused") eq_refl) as (H1 & _ & _ & H4).
  split; [exact (proj1 (H1 "foo")) | exact (H4 tt)].
Defined.

(** Two movies added *)
Lemma addItems_one_put_witness :
  smart (self (ex_state false)) = false /\
  addItems ex_utils ex_server (ItemSeq [ex_movie 3 "a"; ex_movie 4 "b"]) (ex_state false) =
    (Ok tt,
     {| self := ex_collection false;
        trace := [Request PUT
                    "/library/collections/7/items?uri=server://abc/com.plexapp.plugins.library/library/metadata/3,4"] |}).
Proof.
  split; [reflexivity|].
  destruct (addItems_one_put ex_utils ex_server (ex_state false)
              [ex_movie 3 "a"; ex_movie 4 "b"] eq_refl) as [H _].
  - intros i Hi. apply elem_of_cons in Hi as [->|Hi]; [reflexivity|].
    apply elem_of_cons in Hi as [->|Hi]; [reflexivity|].
    destruct (not_elem_of_nil _ Hi).
  - exact H.
Defined.

(** [None] on the sample collection *)
Lemma items_none_witness :
  smart (self (ex_state false)) = false /\
  addItems ex_utils ex_server ItemsNone (ex_state false) =
    (Raise (TypeError "'NoneType' object is not iterable"), ex_state false).
Proof.
  split; [reflexivity|].
  exact (proj1 (items_none ex_utils ex_server ex_base (ex_state false) "T"
                  (SectionName "Movies") [] eq_refl)).
Defined.

(** Three members to remove, the second request refused *)
Lemma removeItems_stops_at_fault_witness :
  smart (self (ex_state false)) = false /\
  removeItems (ex_server_after 1 true)
    (ItemSeq [ex_movie 3 "a"; ex_movie 4 "b"; ex_movie 5 "c"]) (ex_state false) =
    (Raise (ServerError "connection refused"),
     {| self := ex_collection false;
        trace := [Request DELETE "/library/collections/7/items/3";
                  Request DELETE "/library/collections/7/items/4"] |}).
Proof.
  split; [reflexivity|].
  apply (removeItems_stops_at_fault (ex_server_after 1 true) (ex_state false)
           [ex_movie 3 "a"] [ex_movie 5 "c"] (ex_movie 4 "b") (ServerError "connection refused")).
  - reflexivity.
  - simpl. split; [eexists; reflexivity | exact I].
  - reflexivity.
Defined.

(** The filters of the smart sample collection updated *)
Lemma updateFilters_one_put_witness :
  smart (self (ex_state true)) = true /\
  trace (snd (updateFilters ex_utils ex_server ex_base ex_args (ex_state true))) =
    [Request PUT
       "/library/collections/7/items?uri=server://abc/com.plexapp.plugins.library/library/sections/1/all?type=1"].
Proof.
  split; [reflexivity|].
  destruct (updateFilters_one_put ex_utils ex_server ex_base (ex_state true) _ ex_section
              ex_args eq_refl eq_refl) as [H _].
  rewrite (H _ _ eq_refl). reflexivity.
Defined.

(** A movie and a track offered to [_create] *)
Lemma create_rejects_mixed_types_witness :
  _create ex_utils ex_server ex_base "T" (SectionObj ex_section)
    (ItemSeq [ex_movie 3 "a"; ex_track 4 "b"]) [] =
    (Raise (BadRequest "Can not mix media types when building a collection."), []).
Proof.
  apply (create_rejects_mixed_types ex_utils ex_server ex_base "T" (SectionObj ex_section)
           [] [] ex_section (ex_movie 3 "a") [ex_track 4 "b"]).
  - reflexivity.
  - exists (ex_track 4 "b"). split; [apply list_elem_of_here | discriminate].
Defined.

(** A creation answered with an empty container *)
Lemma post_and_build_outcome_witness :
  post_and_build ex_utils ex_empty_server ex_base "/library/collections?title=T" [] =
    (Raise (IndexError "child index out of range"),
     [Request POST "/library/collections?title=T"]).
Proof.
  destruct (post_and_build_outcome ex_utils ex_empty_server ex_base
              "/library/collections?title=T" []) as (H1 & _ & H3 & _).
  apply injective_projections; [exact (H3 ∅ eq_refl) | exact H1].
Defined.

(** A collection created on the sample server *)
Lemma created_collection_is_fresh_witness :
  exists c t',
    create ex_utils ex_server ex_base "T" (SectionName "Movies")
      (ItemSeq [ex_movie 3 "a"]) false ex_args [] = (Ok c, t') /\
    _items c = None /\ _section c = None.
Proof.
  eexists. eexists. split; [vm_compute; reflexivity|].
  destruct (created_collection_is_fresh ex_utils ex_server ex_base "T" (SectionName "Movies")
              (ItemSeq [ex_movie 3 "a"]) false ex_args [] _ _ eq_refl) as (H1 & H2 & _).
  split; [exact H1 | exact H2].
Defined.


(** A smart collection created without a type *)
Lemma createSmart_request_witness :
  snd (_createSmart ex_utils ex_server ex_base "T" (SectionName "Movies") ex_args []) =
    [Request POST
       "/library/collections?uri=server://abc/com.plexapp.plugins.library/library/sections/1/all?type=1&type=1&title=T&smart=1&sectionId=1"].
Proof.
  rewrite (createSmart_request ex_utils ex_server ex_base "T" (SectionName "Movies") ex_args
             [] [] [] ex_section "/library/sections/1/all?type=1" 1 eq_refl eq_refl eq_refl).
  reflexivity.
Defined.

(** A title given, and a lock taken off by an extra argument *)
Lemma edit_arguments_witness :
  NoDup (dict_keys [("title.locked", PInt 0); ("year.value", PInt 1999)]) /\
  exists args,
    edit ex_partial (Some "New") None None None
         [("title.locked", PInt 0); ("year.value", PInt 1999)] = super_edit ex_partial args /\
    dict_get args (Some "title.value") = Some (PStr "New") /\
    dict_get args (Some "title.locked") = Some (PInt 0) /\
    dict_get args (Some "year.value") = Some (PInt 1999) /\
    dict_get args (Some "summary.value") = None.
Proof.
  assert (Hnd : NoDup (dict_keys [("title.locked", PInt 0); ("year.value", PInt 1999)])).
  { simpl. apply NoDup_cons. split.
    - rewrite elem_of_cons, elem_of_nil. intros [H|H]; [discriminate H | exact H].
    - apply NoDup_cons. split; [apply not_elem_of_nil | apply NoDup_nil_2]. }
  split; [exact Hnd|].
  destruct (edit_arguments ex_partial (Some "New") None None None _ Hnd) as (args & E & H).
  exists args. split; [exact E|].
  rewrite !H. repeat split.
Defined.

(** A sync on a section that does not allow it *)
Lemma sync_not_allowed_witness :
  sync ex_base (ex_synclib false) (ex_myplex_sync false) None None None None None None false None
       (ex_state false) =
    (Raise (BadRequest "The collection is not allowed to sync"),
     {| self := set_section (ex_collection false) (Some ex_section); trace := [] |}).
Proof.
  apply (sync_not_allowed ex_base (ex_synclib false) (ex_myplex_sync false)
           (ex_state false) _ ex_section); reflexivity.
Defined.

(** A sync of a collection of collections *)
Lemma sync_unsupported_kind_witness :
  fst (sync ex_base (ex_synclib true) (ex_myplex_sync true) None None None None None None false
            None {| self := ex_odd_collection; trace := [] |}) =
    Raise (Unsupported "Unexpected collection type").
Proof.
  rewrite (sync_unsupported_kind ex_base (ex_synclib true) (ex_myplex_sync true)
             {| self := ex_odd_collection; trace := [] |} _ ex_section tt []
             None None None None None None false None eq_refl eq_refl eq_refl).
  - reflexivity.
  - simpl. rewrite !not_elem_of_cons. repeat split; try discriminate. apply not_elem_of_nil.
Defined.

(** A sync of the sample collection of movies *)
Lemma sync_submits_witness :
  fst (sync ex_base (ex_synclib true) (ex_myplex_sync true) None None None None None None false
            (Some "") (ex_state false)) =
    Ok "library:///directory/%2Flibrary%2Fcollections%2F7%2Fchildren%3FexcludeAllLeaves%3D1".
Proof.
  rewrite (sync_submits ex_base (ex_synclib true) (ex_myplex_sync true)
             (ex_state false) _ ex_section tt [] "video" (None, false) "video settings"
             None None None None None None false (Some "")
             eq_refl eq_refl eq_refl eq_refl eq_refl (or_introl (conj eq_refl eq_refl))).
  reflexivity.
Defined.
